(** * Upstox streaming: exchange mapping, streaming client and adapter

    A shallow embedding of
      - [broker/upstox/streaming/upstox_mapping.py]
      - [broker/upstox/streaming/upstox_websocket.py]
      - [broker/upstox/streaming/upstox_adapter.py]
    followed by the properties of the streaming core.

    Conventions.  A Python [str] is a Rocq [string], a sequence of
    characters with code points below 256; [bytes] is a list of [byte].
    A [dict] used as a map is a [gmap]; a dict literal is kept as
    its item list, in insertion order, and turned into a map by inserting
    the items from left to right (a later item overrides an earlier one).
    Methods that mutate [self], log, or raise are written in a
    state-and-exception monad: the state reached when an exception is
    raised is kept, as in Python. *)

From stdpp Require Import base strings gmap list.
From Stdlib Require Import ZArith Ascii String.
From Stdlib.Strings Require Import Byte.

Open Scope string_scope.

(** ** Python strings *)

Module Str.

(** [str.upper] on one character: the ASCII letters a-z are mapped to
    A-Z.  Characters outside ASCII are left as they are (Python applies
    the Unicode case mapping there); no exchange code of the table
    contains one. *)
Definition upper_char (c : ascii) : ascii :=
  let n := nat_of_ascii c in
  if (97 <=? n)%nat && (n <=? 122)%nat then ascii_of_nat (n - 32) else c.

Fixpoint upper (s : string) : string :=
  match s with
  | EmptyString => EmptyString
  | String c s' => String (upper_char c) (upper s')
  end.

(** [sep.join(l)] *)
Fixpoint join (sep : string) (l : list string) : string :=
  match l with
  | [] => EmptyString
  | [x] => x
  | x :: l' => x ++ sep ++ join sep l'
  end.

End Str.

(** ** Python dictionaries *)

Module PyDict.

(** A dict display [{k1: v1, k2: v2, ...}]: items are stored from left to
    right. *)
Definition literal {V : Type} (items : list (string * V)) : gmap string V :=
  foldl (λ m kv, <[kv.1 := kv.2]> m) ∅ items.

(** [d.get(k, default)] *)
Definition get {K V : Type} `{Countable K}
    (d : gmap K V) (k : K) (default : V) : V :=
  match d !! k with
  | Some v => v
  | None => default
  end.

(** [d.pop(k, None)]: the value is discarded by every caller here, so
    only the remaining dict is returned.  A missing key is not an
    error when a default is given. *)
Definition pop {K V : Type} `{Countable K} (d : gmap K V) (k : K) : gmap K V :=
  delete k d.

End PyDict.

(** ** upstox_mapping.py *)

Module UpstoxExchangeMapper.

(** The items of the [OA_TO_UPSTOX] display, in source order. *)
Definition OA_TO_UPSTOX_items : list (string * string) :=
  [ ("NSE", "NSE_EQ");
    ("BSE", "BSE_EQ");
    ("NFO", "NSE_FO");
    ("BFO", "BSE_FO");
    ("CDS", "NSE_CURRENCY");
    ("BCD", "BSE_CURRENCY");
    ("MCX", "MCX_FO");
    ("NSE_INDEX", "NSE_INDEX");
    ("BSE_INDEX", "BSE_INDEX") ].

Definition OA_TO_UPSTOX : gmap string string :=
  PyDict.literal OA_TO_UPSTOX_items.

(** [{v: k for k, v in OA_TO_UPSTOX.items()}]: the keys of the display
    are pairwise distinct, so [items()] yields the display's items in
    order; each one is stored swapped. *)
Definition UPSTOX_TO_OA : gmap string string :=
  foldl (λ m kv, <[kv.2 := kv.1]> m) ∅ OA_TO_UPSTOX_items.

Definition to_upstox_exchange (oa_exchange : string) : string :=
  PyDict.get OA_TO_UPSTOX (Str.upper oa_exchange) (Str.upper oa_exchange).

Definition to_oa_exchange (upstox_exchange : string) : string :=
  PyDict.get UPSTOX_TO_OA (Str.upper upstox_exchange) (Str.upper upstox_exchange).

End UpstoxExchangeMapper.

Module UpstoxCapabilityRegistry.

Definition MODES : list string :=
  ["ltpc"; "option_greeks"; "full"; "full_d30"].

Definition MAX_SUBSCRIPTIONS : gmap string Z :=
  PyDict.literal
    [ ("ltpc", 5000%Z);
      ("option_greeks", 3000%Z);
      ("full", 2000%Z);
      ("full_d30", 50%Z) ].

(** [mode in cls.MODES] *)
Definition is_mode_supported (mode : string) : bool :=
  bool_decide (mode ∈ MODES).

Definition get_max_subscriptions (mode : string) : Z :=
  PyDict.get MAX_SUBSCRIPTIONS mode 0%Z.

End UpstoxCapabilityRegistry.

(** ** Exceptions, state and logging *)

Module Py.

(** Exceptions derived from [Exception] (the ones [except Exception]
    catches). *)
Inductive exn : Type :=
| Exception (msg : string)            (* [raise Exception(msg)] *)
| AttributeError (msg : string)       (* attribute lookup on [None] *)
| Raised (cls : string) (msg : string). (* any other class, e.g. the
                                           decoder's or the transport's *)

Inductive outcome (A : Type) : Type :=
| Returns (a : A)
| Raises (e : exn).
Arguments Returns {A} a.
Arguments Raises {A} e.

(** A computation over a mutable state [S]. *)
Definition M (S A : Type) : Type := S → outcome A * S.

Definition ret {S A} (a : A) : M S A := λ s, (Returns a, s).

Definition raise {S A} (e : exn) : M S A := λ s, (Raises e, s).

Definition bind {S A B} (m : M S A) (k : A → M S B) : M S B :=
  λ s, match m s with
       | (Returns a, s') => k a s'
       | (Raises e, s') => (Raises e, s')
       end.

(** [try: body  except Exception as e: handler(e)] *)
Definition try_except {S A} (body : M S A) (handler : exn → M S A) : M S A :=
  λ s, match body s with
       | (Returns a, s') => (Returns a, s')
       | (Raises e, s') => handler e s'
       end.

Definition get {S} : M S S := λ s, (Returns s, s).

Definition modify {S} (f : S → S) : M S unit := λ s, (Returns tt, f s).

(** Runs a computation over a component of the state. *)
Definition zoom {S T A} (proj : S → T) (upd : T → S → S) (m : M T A) : M S A :=
  λ s, let '(r, t') := m (proj s) in (r, upd t' s).

Definition returned {A} (r : outcome A) : bool :=
  match r with Returns _ => true | Raises _ => false end.

(** Truth value of an optional string ([None] and the empty string are
    false). *)
Definition truthy (o : option string) : bool :=
  match o with
  | None => false
  | Some EmptyString => false
  | Some (String _ _) => true
  end.

(** [s[:n]] *)
Fixpoint prefix (n : nat) (s : string) : string :=
  match n, s with
  | S n', String c s' => String c (prefix n' s')
  | _, _ => EmptyString
  end.

End Py.

Export Py (exn, outcome, Returns, Raises).

Notation "'let*' x ':=' m 'in' k" := (Py.bind m (λ x, k))
  (at level 10, x name, m at level 100, k at level 200,
   format "'[v' 'let*'  x  ':='  m  'in' '/' k ']'").
Notation "m '>>' k" := (Py.bind m (λ _, k))
  (at level 100, k at level 200, right associativity,
   format "'[v' m  '>>' '/' k ']'").

(** ** json.dumps *)

Module Json.

(** The values the control messages are built from.  A dict keeps its
    items in insertion order, which is the order [json.dumps] writes
    them in. *)
#[local] Set Warnings "-register-all".
Inductive value : Type :=
| JStr (s : string)
| JList (l : list value)
| JDict (items : list (string * value)).

Definition dquote : string := String "034"%char EmptyString.
Definition backslash : string := String "092"%char EmptyString.

Definition hex_digit (n : nat) : ascii :=
  if (n <? 10)%nat then ascii_of_nat (48 + n) else ascii_of_nat (87 + n).

(** ['\\u{0:04x}'.format(n)] for a code point below 256 *)
Definition u_escape (n : nat) : string :=
  backslash ++ "u00" ++
  String (hex_digit (n / 16)) (String (hex_digit (n mod 16)) EmptyString).

(** One character of a string under [ensure_ascii=True]: the quote, the
    backslash and everything outside [' '..'~'] are escaped. *)
Definition escape_char (c : ascii) : string :=
  let n := nat_of_ascii c in
  if (n =? 34)%nat then backslash ++ dquote
  else if (n =? 92)%nat then backslash ++ backslash
  else if (n =? 8)%nat then backslash ++ "b"
  else if (n =? 12)%nat then backslash ++ "f"
  else if (n =? 10)%nat then backslash ++ "n"
  else if (n =? 13)%nat then backslash ++ "r"
  else if (n =? 9)%nat then backslash ++ "t"
  else if (32 <=? n)%nat && (n <=? 126)%nat then String c EmptyString
  else u_escape n.

Fixpoint escape (s : string) : string :=
  match s with
  | EmptyString => EmptyString
  | String c s' => escape_char c ++ escape s'
  end.

Definition encode_str (s : string) : string := dquote ++ escape s ++ dquote.

(** [json.dumps(v)] with the default separators [', '] and [': ']. *)
Fixpoint dumps (v : value) : string :=
  match v with
  | JStr s => encode_str s
  | JList l => "[" ++ Str.join ", " (map dumps l) ++ "]"
  | JDict items =>
      "{" ++ Str.join ", "
               (map (λ kv, encode_str kv.1 ++ ": " ++ dumps kv.2) items)
          ++ "}"
  end.

End Json.

(** ** The process-wide environment: loggers, waits, uuid generator *)

Module Env.

Inductive level := DEBUG | INFO | WARNING | ERROR.

(** Interpolated values of a logged f-string. *)
Inductive arg (Dict : Type) : Type :=
| AStr (s : string)
| ABytes (b : list byte)
| AInt (z : Z)
| AStrs (l : list string)
| AExn (e : exn)
| ADict (d : Dict)
| ANone.
Arguments AStr {Dict} s.
Arguments ABytes {Dict} b.
Arguments AInt {Dict} z.
Arguments AStrs {Dict} l.
Arguments AExn {Dict} e.
Arguments ADict {Dict} d.
Arguments ANone {Dict}.

(** One call of [logging.getLogger(name).<level>(f"...")]: the f-string
    as written in the source, and its interpolated values in order. *)
Record record (Dict : Type) : Type := Record_ {
  logger : string;
  lvl : level;
  text : string;
  args : list (arg Dict)
}.
Arguments Record_ {Dict} logger lvl text args.
Arguments logger {Dict} r.
Arguments lvl {Dict} r.
Arguments text {Dict} r.
Arguments args {Dict} r.

(** The application that owns the client, as far as the callbacks can
    reach it: the log written so far and the state [Owner] that the
    owner's callbacks act on. *)
Record Host (Dict Owner : Type) : Type := Host_ {
  log : list (record Dict);
  owner : Owner
}.
Arguments Host_ {Dict Owner} log owner.
Arguments log {Dict Owner} h.
Arguments owner {Dict Owner} h.

(** What lies outside the objects: the host, the timeouts (in
    milliseconds) of the [Event.wait] calls made so far by the calling
    thread, and the number of uuids drawn so far. *)
Record World (Dict Owner : Type) : Type := World_ {
  host : Host Dict Owner;
  waits : list Z;
  draws : nat
}.
Arguments World_ {Dict Owner} host waits draws.
Arguments host {Dict Owner} w.
Arguments waits {Dict Owner} w.
Arguments draws {Dict Owner} w.

Section Ops.
Context {Dict Owner : Type}.

Definition say (r : record Dict) (h : Host Dict Owner) : Host Dict Owner :=
  Host_ (log h ++ [r]) (owner h).

Definition set_host (h : Host Dict Owner) (w : World Dict Owner)
    : World Dict Owner :=
  World_ h (waits w) (draws w).

Definition write (r : record Dict) (w : World Dict Owner) : World Dict Owner :=
  set_host (say r (host w)) w.

Definition waited (ms : Z) (w : World Dict Owner) : World Dict Owner :=
  World_ (host w) (waits w ++ [ms]) (draws w).

Definition drew (w : World Dict Owner) : World Dict Owner :=
  World_ (host w) (waits w) (S (draws w)).
End Ops.

End Env.

(** ** External collaborators *)

(** The generated protobuf module [MarketDataFeedV3_pb2] and
    [google.protobuf.json_format]: parsing a [FeedResponse] from bytes and
    converting it to a dict.  Either step may raise. *)
Class Codec : Type := {
  FeedResponse : Type;
  Dict : Type;
  ParseFromString : list byte → outcome FeedResponse;
  MessageToDict : FeedResponse → outcome Dict
}.

(** The [websocket.WebSocketApp] object: created from the url and the
    headers, and sent text frames; [send] may raise and may change the
    object. *)
Class Transport : Type := {
  WebSocketApp : Type;
  WebSocketApp_new : string → list string → WebSocketApp;
  WebSocketApp_send : string → WebSocketApp → outcome unit * WebSocketApp
}.

(** [str(uuid.uuid4())]: the string produced by the n-th draw. *)
Class Uuid : Type := {
  uuid4 : nat → string
}.

(** Two more methods of the [websocket.WebSocketApp] object: [close()] and
    [send(data, opcode=ABNF.OPCODE_BINARY)].  Either may raise and may
    change the object. *)
Class TransportControl `{transport : Transport} : Type := {
  WebSocketApp_close : WebSocketApp → outcome unit * WebSocketApp;
  WebSocketApp_send_binary :
    list byte → WebSocketApp → outcome unit * WebSocketApp
}.

(** ** upstox_websocket.py *)

Module UpstoxWebSocket.
Section Client.
Context `{codec : Codec} `{transport : Transport} {Owner : Type}.

#[local] Abbreviation World := (Env.World Dict Owner).
#[local] Abbreviation Host := (Env.Host Dict Owner).

(** A frame handed over by the transport: [bytes] for a binary frame,
    [str] for a text frame. *)
Inductive message : Type :=
| Bytes (b : list byte)
| Text (s : string).

(** What [on_message] receives: the decoded dict of a binary frame, or a
    text frame as it came. *)
Inductive payload : Type :=
| Decoded (d : Dict)
| Verbatim (s : string).

(** State of the thread started by [connect]. *)
Inductive thread : Type := Running | Finished.

(** The instance attributes set by [__init__].  A callback is [None] or
    a callable; it runs on the host and may raise. *)
Record t : Type := Build {
  access_token : string;
  ws : option WebSocketApp;
  connected : bool;
  on_message : option (WebSocketApp → payload → Py.M Host unit);
  on_error : option (WebSocketApp → exn → Py.M Host unit);
  on_close :
    option (WebSocketApp → option Z → option string → Py.M Host unit);
  on_open : option (WebSocketApp → Py.M Host unit);
  _thread : option thread;
  _stop_event : bool
}.

Definition WS_URL : string := "wss://api.upstox.com/v3/feed/market-data-feed".

Definition __init__ (access_token : string)
    (on_message : option (WebSocketApp → payload → Py.M Host unit))
    (on_error : option (WebSocketApp → exn → Py.M Host unit))
    (on_close :
       option (WebSocketApp → option Z → option string → Py.M Host unit))
    (on_open : option (WebSocketApp → Py.M Host unit)) : t :=
  Build access_token None false on_message on_error on_close on_open
        None false.

Definition set_ws (v : option WebSocketApp) (c : t) : t :=
  Build (access_token c) v (connected c) (on_message c) (on_error c)
        (on_close c) (on_open c) (_thread c) (_stop_event c).

Definition set_connected (v : bool) (c : t) : t :=
  Build (access_token c) (ws c) v (on_message c) (on_error c)
        (on_close c) (on_open c) (_thread c) (_stop_event c).

Definition set_thread (v : option thread) (c : t) : t :=
  Build (access_token c) (ws c) (connected c) (on_message c) (on_error c)
        (on_close c) (on_open c) v (_stop_event c).

(** Methods run on the object and the environment. *)
Definition St : Type := t * World.

Definition self : Py.M St t := λ s, (Returns s.1, s).

Definition update (f : t → t) : Py.M St unit :=
  Py.modify (λ s, (f s.1, s.2)).

Definition logger (l : Env.level) (text : string)
    (args : list (Env.arg Dict)) : Py.M St unit :=
  Py.modify
    (λ s, (s.1, Env.write (Env.Record_ "upstox_websocket" l text args) s.2)).

(** Calling an injected callback. *)
Definition call (cb : Py.M Host unit) : Py.M St unit :=
  Py.zoom (λ s, Env.host s.2) (λ h s, (s.1, Env.set_host h s.2)) cb.

Definition lift {A} (r : outcome A) : Py.M St A := λ s, (r, s).

Definition message_arg (m : message) : Env.arg Dict :=
  match m with
  | Bytes b => Env.ABytes b
  | Text s => Env.AStr s
  end.

Definition opt_int_arg (o : option Z) : Env.arg Dict :=
  match o with Some z => Env.AInt z | None => Env.ANone end.

Definition opt_str_arg (o : option string) : Env.arg Dict :=
  match o with Some s => Env.AStr s | None => Env.ANone end.

(** *** Event handlers *)

Definition _on_open (ws : WebSocketApp) : Py.M St unit :=
  update (set_connected true) >>
  logger Env.INFO "WebSocket connection opened." [] >>
  let* c := self in
  match on_open c with
  | Some cb => call (cb ws)
  | None => Py.ret tt
  end.

Definition _protobuf_to_dict (proto_msg : FeedResponse) : Py.M St Dict :=
  lift (MessageToDict proto_msg).

Definition _on_message (ws : WebSocketApp) (message : message) : Py.M St unit :=
  logger Env.DEBUG "Raw message from broker: {message}" [message_arg message] >>
  Py.try_except
    (match message with
     | Bytes b =>
         logger Env.DEBUG
           "Received binary message of length {len(message)} bytes."
           [Env.AInt (Z.of_nat (List.length b))] >>
         let* feed_response := lift (ParseFromString b) in
         let* msg_dict := _protobuf_to_dict feed_response in
         let* c := self in
         match on_message c with
         | Some cb => call (cb ws (Decoded msg_dict))
         | None => Py.ret tt
         end
     | Text s =>
         logger Env.DEBUG "Received text message: {message}" [Env.AStr s] >>
         let* c := self in
         match on_message c with
         | Some cb => call (cb ws (Verbatim s))
         | None => Py.ret tt
         end
     end)
    (λ e,
       logger Env.ERROR "Failed to decode protobuf message: {e}" [Env.AExn e] >>
       let* c := self in
       match on_error c with
       | Some cb => call (cb ws e)
       | None => Py.ret tt
       end).

Definition _on_error (ws : WebSocketApp) (error : exn) : Py.M St unit :=
  logger Env.ERROR "WebSocket error: {error}" [Env.AExn error] >>
  let* c := self in
  match on_error c with
  | Some cb => call (cb ws error)
  | None => Py.ret tt
  end.

Definition _on_close (ws : WebSocketApp) (close_status_code : option Z)
    (close_msg : option string) : Py.M St unit :=
  update (set_connected false) >>
  logger Env.INFO "WebSocket closed: {close_status_code} {close_msg}"
    [opt_int_arg close_status_code; opt_str_arg close_msg] >>
  let* c := self in
  match on_close c with
  | Some cb => call (cb ws close_status_code close_msg)
  | None => Py.ret tt
  end.

(** *** The receive loop

    [self.ws.run_forever] is library code.  It is modelled by what it
    does with the handlers registered in [connect]: every event of the
    transport is handed, in order, to the handler registered for it,
    with the [WebSocketApp] as first argument.  Nothing is assumed about
    the library catching what a handler raises: an exception that
    escapes a handler ends the loop. *)

Inductive event : Type :=
| Opened
| Received (m : message)
| Failed (e : exn)
| Closed (close_status_code : option Z) (close_msg : option string).

Definition dispatch (ws : WebSocketApp) (ev : event) : Py.M St unit :=
  match ev with
  | Opened => _on_open ws
  | Received m => _on_message ws m
  | Failed e => _on_error ws e
  | Closed code msg => _on_close ws code msg
  end.

Fixpoint run_forever (ws : WebSocketApp) (events : list event) : Py.M St unit :=
  match events with
  | [] => Py.ret tt
  | ev :: events' => dispatch ws ev >> run_forever ws events'
  end.

(** What the thread started by [connect] does while the calling thread
    is suspended: it runs the receive loop on the events that arrive
    meanwhile.  An exception that ends the loop ends the thread; it does
    not reach the thread that called [connect]. *)
Definition worker (events : list event) : Py.M St unit :=
  let* c := self in
  match _thread c, ws c with
  | Some Running, Some app =>
      Py.try_except (run_forever app events)
                    (λ _, update (set_thread (Some Finished)))
  | _, _ => Py.ret tt
  end.

(** [self._stop_event.wait(timeout)]: the calling thread is suspended
    for at most [ms] milliseconds, during which the worker handles
    [events]. *)
Definition _stop_event_wait (ms : Z) (events : list event) : Py.M St unit :=
  Py.modify (λ s, (s.1, Env.waited ms s.2)) >>
  worker events.

(** *** connect

    [sched] is the environment's part: [sched 0] are the events handled
    between the start of the thread and the first look at the flag,
    [sched (S i)] those handled during the wait of iteration [i]. *)

(** The body of [for _ in range(30)], over the remaining indices.
    [Some v]: the body executed [return v]; [None]: the loop ran out. *)
Fixpoint connect_loop (sched : nat → list event) (range : list nat)
    : Py.M St (option bool) :=
  match range with
  | [] => Py.ret None
  | i :: range' =>
      let* c := self in
      if connected c then Py.ret (Some true)
      else
        _stop_event_wait 100 (sched (S i)) >>
        connect_loop sched range'
  end.

Definition connect (sched : nat → list event) : Py.M St bool :=
  let* c := self in
  logger Env.DEBUG
    "Connecting to Upstox WebSocket at {self.WS_URL} with token: {self.access_token[:6]}... (truncated)"
    [Env.AStr WS_URL; Env.AStr (Py.prefix 6 (access_token c))] >>
  let headers :=
    ["Authorization: Bearer " ++ access_token c; "Accept: */*"] in
  update (set_ws (Some (WebSocketApp_new WS_URL headers))) >>
  update (set_thread (Some Running)) >>
  worker (sched 0) >>
  let* r := connect_loop sched (seq 0 30) in
  match r with
  | Some v => Py.ret v
  | None =>
      logger Env.DEBUG "WebSocket connection attempt timed out." [] >>
      Py.ret false
  end.

(** *** Control messages *)

(** [self.ws.send(text)] *)
Definition ws_send (text : string) : Py.M St unit :=
  let* c := self in
  match ws c with
  | None =>
      Py.raise (Py.AttributeError "'NoneType' object has no attribute 'send'")
  | Some app =>
      λ s, let '(r, app') := WebSocketApp_send text app in
           (r, (set_ws (Some app') s.1, s.2))
  end.

Definition subscribe_req (guid mode : string) (instrument_keys : list string)
    : Json.value :=
  Json.JDict
    [ ("guid", Json.JStr guid);
      ("method", Json.JStr "sub");
      ("data", Json.JDict
                 [ ("mode", Json.JStr mode);
                   ("instrumentKeys",
                    Json.JList (map Json.JStr instrument_keys)) ]) ].

Definition subscribe (guid mode : string) (instrument_keys : list string)
    : Py.M St unit :=
  logger Env.DEBUG
    "Subscribing to: {instrument_keys} with mode: {mode} and guid: {guid}"
    [Env.AStrs instrument_keys; Env.AStr mode; Env.AStr guid] >>
  let req := subscribe_req guid mode instrument_keys in
  ws_send (Json.dumps req).

Definition unsubscribe_req (guid : string) (instrument_keys : list string)
    : Json.value :=
  Json.JDict
    [ ("guid", Json.JStr guid);
      ("method", Json.JStr "unsub");
      ("data", Json.JDict
                 [ ("instrumentKeys",
                    Json.JList (map Json.JStr instrument_keys)) ]) ].

Definition unsubscribe (guid : string) (instrument_keys : list string)
    : Py.M St unit :=
  logger Env.DEBUG
    "Unsubscribing from: {instrument_keys} with guid: {guid}"
    [Env.AStrs instrument_keys; Env.AStr guid] >>
  let req := unsubscribe_req guid instrument_keys in
  ws_send (Json.dumps req).

(** *** disconnect and send_binary *)

Context {control : @TransportControl transport}.

Definition set_stop_event (v : bool) (c : t) : t :=
  Build (access_token c) (ws c) (connected c) (on_message c) (on_error c)
        (on_close c) (on_open c) (_thread c) v.

(** [self.ws.close()] on the handle [app] *)
Definition ws_close (app : WebSocketApp) : Py.M St unit :=
  λ s, let '(r, app') := WebSocketApp_close app in
       (r, (set_ws (Some app') s.1, s.2)).

Definition disconnect : Py.M St unit :=
  logger Env.DEBUG "Disconnecting Upstox WebSocket." [] >>
  update (set_stop_event true) >>
  let* c := self in
  (match ws c with
   | Some app => ws_close app
   | None => Py.ret tt
   end) >>
  update (set_connected false).

(** [self.ws.send(data, opcode=websocket.ABNF.OPCODE_BINARY)] on [app] *)
Definition ws_send_binary (data : list byte) (app : WebSocketApp)
    : Py.M St unit :=
  λ s, let '(r, app') := WebSocketApp_send_binary data app in
       (r, (set_ws (Some app') s.1, s.2)).

Definition send_binary (data : list byte) : Py.M St unit :=
  let* c := self in
  match ws c with
  | Some app => if connected c then ws_send_binary data app else Py.ret tt
  | None => Py.ret tt
  end.

End Client.
End UpstoxWebSocket.

(** [database.auth_db.get_auth_token]: the stored token of a user, if
    any. *)
Class AuthDb : Type := {
  get_auth_token : string → option string
}.

(** ** upstox_adapter.py *)

Module UpstoxWebSocketAdapter.
Section Adapter.
Context `{codec : Codec} `{transport : Transport} `{uuid : Uuid}
        `{auth_db : AuthDb} {Owner : Type}.

#[local] Abbreviation World := (Env.World Dict Owner).
#[local] Abbreviation Host := (Env.Host Dict Owner).
#[local] Abbreviation Client := (@UpstoxWebSocket.t codec transport Owner).
#[local] Abbreviation payload := (@UpstoxWebSocket.payload codec).

(** A Subscription Key [(symbol, exchange, mode)]. *)
Definition key : Type := string * string * string.

(** The instance attributes set by [__init__] (the logger is the
    process-wide one of [Env]; the lock is never acquired). *)
Record t : Type := Build {
  ws_client : option Client;
  user_id : option string;
  broker_name : string;
  running : bool;
  access_token : option string;
  subscriptions : gmap key bool
}.

Definition __init__ : t := Build None None "upstox" false None ∅.

Definition set_ws_client (v : option Client) (a : t) : t :=
  Build v (user_id a) (broker_name a) (running a) (access_token a)
        (subscriptions a).

Definition set_identity (broker : string) (user : option string) (a : t) : t :=
  Build (ws_client a) user broker (running a) (access_token a)
        (subscriptions a).

Definition set_running (v : bool) (a : t) : t :=
  Build (ws_client a) (user_id a) (broker_name a) v (access_token a)
        (subscriptions a).

Definition set_access_token (v : option string) (a : t) : t :=
  Build (ws_client a) (user_id a) (broker_name a) (running a) v
        (subscriptions a).

Definition set_subscriptions (v : gmap key bool) (a : t) : t :=
  Build (ws_client a) (user_id a) (broker_name a) (running a)
        (access_token a) v.

Definition St : Type := t * World.

Definition self : Py.M St t := λ s, (Returns s.1, s).

Definition update (f : t → t) : Py.M St unit :=
  Py.modify (λ s, (f s.1, s.2)).

Definition record (l : Env.level) (text : string)
    (args : list (Env.arg Dict)) : Env.record Dict :=
  Env.Record_ "upstox_websocket_adapter" l text args.

Definition logger (l : Env.level) (text : string)
    (args : list (Env.arg Dict)) : Py.M St unit :=
  Py.modify (λ s, (s.1, Env.write (record l text args) s.2)).

(** [self.ws_client.<method>(...)]: the attribute lookup fails on
    [None]; otherwise the method runs on the client object. *)
Definition ws_client_call {A} (method : string)
    (m : Py.M (UpstoxWebSocket.St (Owner := Owner)) A) : Py.M St A :=
  let* a := self in
  match ws_client a with
  | None =>
      Py.raise (Py.AttributeError
                  ("'NoneType' object has no attribute '" ++ method ++ "'"))
  | Some c =>
      λ s, let '(r, (c', w')) := m (c, s.2) in
           (r, (set_ws_client (Some c') s.1, w'))
  end.

(** [str(uuid.uuid4())] *)
Definition new_guid : Py.M St string :=
  λ s, (Returns (uuid4 (Env.draws s.2)), (s.1, Env.drew s.2)).

(** *** Callbacks handed to the Streaming Client

    Bound methods of the adapter; they use nothing of it but the
    logger. *)

Definition payload_arg (p : payload) : Env.arg Dict :=
  match p with
  | UpstoxWebSocket.Decoded d => Env.ADict d
  | UpstoxWebSocket.Verbatim s => Env.AStr s
  end.

Definition _on_open (ws : WebSocketApp) : Py.M Host unit :=
  Py.modify (Env.say (record Env.INFO "Upstox WebSocket connection opened." [])).

Definition _normalize_market_data (message : payload) : payload := message.

Definition _on_message (ws : WebSocketApp) (message : payload)
    : Py.M Host unit :=
  Py.modify (Env.say (record Env.DEBUG "Adapter received message: {message}"
                        [payload_arg message])) >>
  Py.modify (Env.say (record Env.INFO "Received message: {message}"
                        [payload_arg message])) >>
  let normalized := _normalize_market_data message in
  Py.ret tt.

Definition _on_error (ws : WebSocketApp) (error : exn) : Py.M Host unit :=
  Py.modify (Env.say (record Env.ERROR "WebSocket error: {error}"
                        [Env.AExn error])).

Definition _on_close (ws : WebSocketApp) (close_status_code : option Z)
    (close_msg : option string) : Py.M Host unit :=
  Py.modify (Env.say (record Env.INFO
                        "WebSocket closed: {close_status_code} {close_msg}"
                        [UpstoxWebSocket.opt_int_arg close_status_code;
                         UpstoxWebSocket.opt_str_arg close_msg])).

(** *** Methods *)

Definition initialize (broker_name : string) (user_id : option string)
    : Py.M St unit :=
  update (set_identity broker_name user_id) >>
  let token :=
    match user_id with
    | Some (String _ _ as u) => get_auth_token u
    | _ => None
    end in
  if Py.truthy token then update (set_access_token token)
  else
    logger Env.WARNING
      "No Upstox access token found for user_id '{user_id}' in DB."
      [UpstoxWebSocket.opt_str_arg user_id].

Definition connect (sched : nat → list UpstoxWebSocket.event) : Py.M St unit :=
  let* a := self in
  match access_token a with
  | Some (String _ _ as token) =>
      update (set_ws_client
                (Some (UpstoxWebSocket.__init__ token
                         (Some _on_message) (Some _on_error)
                         (Some _on_close) (Some _on_open)))) >>
      let* _ := ws_client_call "connect" (UpstoxWebSocket.connect sched) in
      update (set_running true)
  | Some EmptyString | None =>
      (* [not self.access_token] *)
      Py.raise (Py.Exception
                  "Upstox access_token required for WebSocket connection.")
  end.

Definition instrument_key (symbol exchange : string) : string :=
  UpstoxExchangeMapper.to_upstox_exchange exchange ++ "|" ++ symbol.

(** The returned acknowledgement, a dict of four items. *)
Definition ack (status symbol exchange mode : string) : list (string * string) :=
  [ ("status", status); ("symbol", symbol); ("exchange", exchange);
    ("mode", mode) ].

Definition subscribe (symbol exchange mode : string) (depth_level : Z)
    : Py.M St (list (string * string)) :=
  let* guid := new_guid in
  let instrument_key := instrument_key symbol exchange in
  logger Env.DEBUG
    "Adapter subscribing: symbol={symbol}, exchange={exchange}, mode={mode}, guid={guid}"
    [Env.AStr symbol; Env.AStr exchange; Env.AStr mode; Env.AStr guid] >>
  ws_client_call "subscribe"
    (UpstoxWebSocket.subscribe guid mode [instrument_key]) >>
  let* a := self in
  update (set_subscriptions
            (<[(symbol, exchange, mode) := true]> (subscriptions a))) >>
  Py.ret (ack "subscribed" symbol exchange mode).

Definition unsubscribe (symbol exchange mode : string)
    : Py.M St (list (string * string)) :=
  let* guid := new_guid in
  let instrument_key := instrument_key symbol exchange in
  logger Env.DEBUG
    "Adapter unsubscribing: symbol={symbol}, exchange={exchange}, mode={mode}, guid={guid}"
    [Env.AStr symbol; Env.AStr exchange; Env.AStr mode; Env.AStr guid] >>
  ws_client_call "unsubscribe"
    (UpstoxWebSocket.unsubscribe guid [instrument_key]) >>
  let* a := self in
  update (set_subscriptions
            (PyDict.pop (subscriptions a) (symbol, exchange, mode))) >>
  Py.ret (ack "unsubscribed" symbol exchange mode).

(** *** disconnect *)

Context {control : @TransportControl transport}.

Definition disconnect : Py.M St unit :=
  let* a := self in
  (match ws_client a with
   | Some _ => ws_client_call "disconnect" UpstoxWebSocket.disconnect
   | None => Py.ret tt
   end) >>
  update (set_running false).

End Adapter.
End UpstoxWebSocketAdapter.

(** ** Collaborators used to run the model on concrete inputs *)

Module Sample.

Definition decode_error : exn :=
  Py.Raised "DecodeError" "Error parsing message".

(** A stand-in wire format: one length byte, then that many bytes. *)
Definition parse (b : list byte) : outcome (list byte) :=
  match b with
  | [] => Raises decode_error
  | n :: body =>
      if (Byte.to_nat n =? List.length body)%nat then Returns body
      else Raises decode_error
  end.

#[export] Instance codec : Codec := {|
  FeedResponse := list byte;
  Dict := list byte;
  ParseFromString := parse;
  MessageToDict := Returns
|}.

(** A transport that records the text frames it was given, and whose
    [send] raises once the connection is gone. *)
Record wire : Type := Wire {
  url : string;
  header : list string;
  live : bool;
  sent : list string
}.

Definition closed_error : exn :=
  Py.Raised "WebSocketConnectionClosedException" "Connection is already closed.".

Definition wire_send (text : string) (x : wire) : outcome unit * wire :=
  if live x then (Returns tt, Wire (url x) (header x) true (sent x ++ [text]))
  else (Raises closed_error, x).

#[export] Instance transport : Transport := {|
  WebSocketApp := wire;
  WebSocketApp_new u h := Wire u h true [];
  WebSocketApp_send := wire_send
|}.

Definition digit (n : nat) : string :=
  String (ascii_of_nat (48 + n mod 10)) EmptyString.

#[export] Instance uuid : Uuid := {|
  uuid4 n := "5f0c1a9e-3b7d-4c21-9e6a-0000000000" ++ digit (n / 10) ++ digit n
|}.

Definition world0 : Env.World Dict unit := Env.World_ (Env.Host_ [] tt) [] 0.

(** Closing takes the connection down; a binary frame is recorded with
    the text frames, byte for byte, and raises like a text frame once the
    connection is gone. *)
Definition wire_close (x : wire) : outcome unit * wire :=
  (Returns tt, Wire (url x) (header x) false (sent x)).

Definition wire_send_binary (data : list byte) (x : wire) : outcome unit * wire :=
  wire_send (string_of_list_byte data) x.

#[export] Instance control : TransportControl := {|
  WebSocketApp_close := wire_close;
  WebSocketApp_send_binary := wire_send_binary
|}.

Definition wire0 : WebSocketApp := Wire UpstoxWebSocket.WS_URL [] true [].

(** A client as the adapter builds it, before [connect]. *)
Definition client0 : UpstoxWebSocket.t (Owner := unit) :=
  UpstoxWebSocket.__init__ "eyJ0eXAiOiJKV1Qi"
    (Some UpstoxWebSocketAdapter._on_message)
    (Some UpstoxWebSocketAdapter._on_error)
    (Some UpstoxWebSocketAdapter._on_close)
    (Some UpstoxWebSocketAdapter._on_open).

(** The transport opens during the wait of iteration [k - 1]. *)
Definition opens_at (k : nat) : nat → list UpstoxWebSocket.event :=
  λ i, if (i =? k)%nat then [UpstoxWebSocket.Opened] else [].

(** The transport never opens. *)
Definition silent : nat → list UpstoxWebSocket.event := λ _, [].

(** A client whose transport is up ([live_wire = true]) or gone. *)
Definition client_on (live_wire : bool) : UpstoxWebSocket.t (Owner := unit) :=
  UpstoxWebSocket.set_ws
    (Some (Wire UpstoxWebSocket.WS_URL [] live_wire [] : WebSocketApp))
    client0.

Definition reliance : UpstoxWebSocketAdapter.key := ("RELIANCE", "NSE", "ltpc").

(** An adapter holding a token and the given client and subscriptions. *)
Definition adapter_with (c : option (UpstoxWebSocket.t (Owner := unit)))
    (subs : gmap UpstoxWebSocketAdapter.key bool)
    : UpstoxWebSocketAdapter.t (Owner := unit) :=
  UpstoxWebSocketAdapter.Build c (Some "u1") "upstox" false
    (Some "eyJ0eXAiOiJKV1Qi") subs.

(** The adapter after a [connect] that found the transport up, resp.
    after the connection was lost, with the given subscriptions. *)
Definition connected_adapter := adapter_with (Some (client_on true)).
Definition stranded_adapter := adapter_with (Some (client_on false)).

(** A token store that knows one user. *)
#[export] Instance auth_db : AuthDb := {|
  get_auth_token u :=
    if decide (u = "u1") then Some "eyJ0eXAiOiJKV1Qi" else None
|}.

(** A consumer that chokes on every record it is handed. *)
Definition key_error : exn := Py.Raised "KeyError" "'ltp'".

Definition failing_consumer (ws : WebSocketApp) (p : UpstoxWebSocket.payload)
    : Py.M (Env.Host Dict unit) unit :=
  Py.raise key_error.

Definition client_with_failing_consumer : UpstoxWebSocket.t (Owner := unit) :=
  UpstoxWebSocket.__init__ "eyJ0eXAiOiJKV1Qi"
    (Some failing_consumer)
    (Some UpstoxWebSocketAdapter._on_error)
    None None.

(** Two well-formed frames and a truncated one. *)
Definition decoded (body : list byte) : UpstoxWebSocket.payload :=
  UpstoxWebSocket.Decoded (body : Dict).

Definition frame_a : list byte := [x02; x4c; x54].
Definition frame_bad : list byte := [x05; x4c].
Definition frame_b : list byte := [x01; x50].

End Sample.

(** ** Notions used to state the properties *)

Module Obs.
Section Obs.
Context `{codec : Codec} `{transport : Transport} {Owner : Type}.

#[local] Abbreviation World := (Env.World Dict Owner).
#[local] Abbreviation Host := (Env.Host Dict Owner).
#[local] Abbreviation Client := (@UpstoxWebSocket.t codec transport Owner).
#[local] Abbreviation State := (@UpstoxWebSocket.St codec transport Owner).

(** Decoding a binary frame: parse it, then convert it to a dict. *)
Definition decode (b : list byte) : outcome Dict :=
  match ParseFromString b with
  | Returns m => MessageToDict m
  | Raises e => Raises e
  end.

(** The environment after the client logged the arrival of the binary
    frame [b]. *)
Definition binary_received (b : list byte) (w : World) : World :=
  Env.write
    (Env.Record_ "upstox_websocket" Env.DEBUG
       "Received binary message of length {len(message)} bytes."
       [Env.AInt (Z.of_nat (List.length b))])
    (Env.write
       (Env.Record_ "upstox_websocket" Env.DEBUG
          "Raw message from broker: {message}" [Env.ABytes b])
       w).

(** ... and after it logged that decoding [b] raised [e]. *)
Definition decode_failed (b : list byte) (e : exn) (w : World) : World :=
  Env.write
    (Env.Record_ "upstox_websocket" Env.ERROR
       "Failed to decode protobuf message: {e}" [Env.AExn e])
    (binary_received b w).

(** The outcome of a callback run in the environment [w], and the
    environment it leaves. *)
Definition outcome_of (cb : Py.M Host unit) (w : World) : outcome unit :=
  (cb (Env.host w)).1.

Definition after (cb : Py.M Host unit) (w : World) : World :=
  Env.set_host (cb (Env.host w)).2 w.

(** A callback that returns whatever it is given. *)
Definition never_raises {A} (cb : A → Py.M Host unit) : Prop :=
  ∀ a w, (cb a w).1 = Returns tt.

Definition on_error_never_raises (c : Client) : Prop :=
  match UpstoxWebSocket.on_error c with
  | Some cb => ∀ ws e w, (cb ws e w).1 = Returns tt
  | None => True
  end.

(** *** The wait of [connect], as seen from outside *)

(** The part of [connect] that precedes its loop. *)
Definition connect_opening (sched : nat → list UpstoxWebSocket.event)
    : Py.M State unit :=
  let* c := UpstoxWebSocket.self in
  UpstoxWebSocket.logger Env.DEBUG
    "Connecting to Upstox WebSocket at {self.WS_URL} with token: {self.access_token[:6]}... (truncated)"
    [Env.AStr UpstoxWebSocket.WS_URL;
     Env.AStr (Py.prefix 6 (UpstoxWebSocket.access_token c))] >>
  UpstoxWebSocket.update
    (UpstoxWebSocket.set_ws
       (Some (WebSocketApp_new UpstoxWebSocket.WS_URL
                ["Authorization: Bearer " ++ UpstoxWebSocket.access_token c;
                 "Accept: */*"]))) >>
  UpstoxWebSocket.update
    (UpstoxWebSocket.set_thread (Some UpstoxWebSocket.Running)) >>
  UpstoxWebSocket.worker (sched 0).

(** The state in which the loop of [connect] looks at the flag for the
    [i]-th time (counting from 0), if it gets that far: after the
    opening and [i] waits of 100 ms. *)
Fixpoint at_poll (sched : nat → list UpstoxWebSocket.event) (i : nat)
    (st : State) : State :=
  match i with
  | 0 => (connect_opening sched st).2
  | S j =>
      (UpstoxWebSocket._stop_event_wait 100 (sched (S j))
         (at_poll sched j st)).2
  end.

Definition flag_at (sched : nat → list UpstoxWebSocket.event) (i : nat)
    (st : State) : bool :=
  UpstoxWebSocket.connected (at_poll sched i st).1.

(** The first index among [k, k+1, ..., k+n-1] at which [f] holds. *)
Fixpoint first_from (f : nat → bool) (k n : nat) : option nat :=
  match n with
  | 0 => None
  | S n' => if f k then Some k else first_from f (S k) n'
  end.

(** Computations that leave the record of waits alone. *)
Definition keeps_waits {A} (m : Py.M State A) : Prop :=
  ∀ st, Env.waits (m st).2.2 = Env.waits st.2.

(** The state after [connect] logged that it timed out. *)
Definition timed_out (st : State) : State :=
  (st.1,
   Env.write
     (Env.Record_ "upstox_websocket" Env.DEBUG
        "WebSocket connection attempt timed out." [])
     st.2).

(** *** Control messages, as seen from outside *)

(** The client as the adapter's [connect] constructs it. *)
Definition fresh_client (token : string) : Client :=
  UpstoxWebSocket.__init__ token
    (Some UpstoxWebSocketAdapter._on_message)
    (Some UpstoxWebSocketAdapter._on_error)
    (Some UpstoxWebSocketAdapter._on_close)
    (Some UpstoxWebSocketAdapter._on_open).

(** The environment after the client logged a request. *)
Definition client_subscribing (guid mode : string) (keys : list string)
    (w : World) : World :=
  Env.write
    (Env.Record_ "upstox_websocket" Env.DEBUG
       "Subscribing to: {instrument_keys} with mode: {mode} and guid: {guid}"
       [Env.AStrs keys; Env.AStr mode; Env.AStr guid])
    w.

Definition client_unsubscribing (guid : string) (keys : list string)
    (w : World) : World :=
  Env.write
    (Env.Record_ "upstox_websocket" Env.DEBUG
       "Unsubscribing from: {instrument_keys} with guid: {guid}"
       [Env.AStrs keys; Env.AStr guid])
    w.

(** *** Events, as seen from outside *)

(** The environment after the client logged the arrival of the text
    frame [s]. *)
Definition text_received (s : string) (w : World) : World :=
  Env.write
    (Env.Record_ "upstox_websocket" Env.DEBUG
       "Received text message: {message}" [Env.AStr s])
    (Env.write
       (Env.Record_ "upstox_websocket" Env.DEBUG
          "Raw message from broker: {message}" [Env.AStr s])
       w).

(** ... after it logged that handling a frame raised [e]. *)
Definition failure_logged (e : exn) (w : World) : World :=
  Env.write
    (Env.Record_ "upstox_websocket" Env.ERROR
       "Failed to decode protobuf message: {e}" [Env.AExn e])
    w.

(** ... and after it logged that it disconnects. *)
Definition disconnecting (w : World) : World :=
  Env.write
    (Env.Record_ "upstox_websocket" Env.DEBUG
       "Disconnecting Upstox WebSocket." [])
    w.

(** What an event does to the connected flag. *)
Definition flag_after (ev : UpstoxWebSocket.event) (flag : bool) : bool :=
  match ev with
  | UpstoxWebSocket.Opened => true
  | UpstoxWebSocket.Closed _ _ => false
  | UpstoxWebSocket.Received _ | UpstoxWebSocket.Failed _ => flag
  end.

(** The flag after a sequence of events: that of the last open or close
    among them, the given one if there is none. *)
Definition flag_after_all (events : list UpstoxWebSocket.event) (flag : bool)
    : bool :=
  foldl (λ b ev, flag_after ev b) flag events.

(** The lifecycle callbacks return whatever they are given
    ([on_message] may raise). *)
Definition lifecycle_never_raises (c : Client) : Prop :=
  on_error_never_raises c ∧
  match UpstoxWebSocket.on_open c with
  | Some cb => ∀ ws w, (cb ws w).1 = Returns tt
  | None => True
  end ∧
  match UpstoxWebSocket.on_close c with
  | Some cb => ∀ ws code msg w, (cb ws code msg w).1 = Returns tt
  | None => True
  end.

(** Two clients with the same token, transport handle, callbacks and
    stop event: they differ at most in the connected flag and the
    thread. *)
Definition same_wiring (c c' : Client) : Prop :=
  UpstoxWebSocket.access_token c' = UpstoxWebSocket.access_token c ∧
  UpstoxWebSocket.ws c' = UpstoxWebSocket.ws c ∧
  UpstoxWebSocket.on_message c' = UpstoxWebSocket.on_message c ∧
  UpstoxWebSocket.on_error c' = UpstoxWebSocket.on_error c ∧
  UpstoxWebSocket.on_close c' = UpstoxWebSocket.on_close c ∧
  UpstoxWebSocket.on_open c' = UpstoxWebSocket.on_open c ∧
  UpstoxWebSocket._stop_event c' = UpstoxWebSocket._stop_event c.

(** The handle and the headers [connect] opens the transport with. *)
Definition opened_transport (token : string) : WebSocketApp :=
  WebSocketApp_new UpstoxWebSocket.WS_URL
    ["Authorization: Bearer " ++ token; "Accept: */*"].

(** The environment in which the adapter hands a request to the client:
    one uuid has been drawn and the request has been logged. *)
Definition announced `{uuid : Uuid} (text symbol exchange mode : string)
    (w : World) : World :=
  Env.write
    (UpstoxWebSocketAdapter.record Env.DEBUG text
       [Env.AStr symbol; Env.AStr exchange; Env.AStr mode;
        Env.AStr (uuid4 (Env.draws w))])
    (Env.drew w).

Definition subscribing `{uuid : Uuid}
    : string → string → string → World → World :=
  announced
    "Adapter subscribing: symbol={symbol}, exchange={exchange}, mode={mode}, guid={guid}".

Definition unsubscribing `{uuid : Uuid}
    : string → string → string → World → World :=
  announced
    "Adapter unsubscribing: symbol={symbol}, exchange={exchange}, mode={mode}, guid={guid}".

End Obs.

(** Strings of ASCII characters. *)
Definition is_ascii (s : string) : Prop :=
  Forall (λ c, (nat_of_ascii c < 128)%nat) (list_ascii_of_string s).

(** The control messages as the specification writes them:
    [{"guid": <uuid>, "method": "sub", "data": {"mode": <mode>,
    "instrumentKeys": [<key>, ...]}}] and, without the mode,
    [{"guid": <uuid>, "method": "unsub", "data": {"instrumentKeys":
    [<key>, ...]}}], every string being a JSON string. *)
Definition quoted (s : string) : string := Json.dquote ++ s ++ Json.dquote.

Definition spec_subscribe_text (guid mode : string) (keys : list string)
    : string :=
  "{" ++ quoted "guid" ++ ": " ++ Json.encode_str guid ++ ", " ++
  quoted "method" ++ ": " ++ quoted "sub" ++ ", " ++
  quoted "data" ++ ": {" ++
    quoted "mode" ++ ": " ++ Json.encode_str mode ++ ", " ++
    quoted "instrumentKeys" ++ ": [" ++
      Str.join ", " (map Json.encode_str keys) ++ "]}}".

Definition spec_unsubscribe_text (guid : string) (keys : list string)
    : string :=
  "{" ++ quoted "guid" ++ ": " ++ Json.encode_str guid ++ ", " ++
  quoted "method" ++ ": " ++ quoted "unsub" ++ ", " ++
  quoted "data" ++ ": {" ++
    quoted "instrumentKeys" ++ ": [" ++
      Str.join ", " (map Json.encode_str keys) ++ "]}}".

End Obs.
Export Obs.

(** * Properties *)

(** ** Exchange codes and modes *)

Section Mapping.
Import UpstoxExchangeMapper UpstoxCapabilityRegistry.

Lemma foldl_insert_lookup_notin {V : Type} (items : list (string * V))
    (m : gmap string V) (k : string) :
  k ∉ items.*1 →
  foldl (λ m kv, <[kv.1 := kv.2]> m) m items !! k = m !! k.
Proof.
  revert m. induction items as [|[k' v] items IH]; intros m Hk; [done|].
  simpl in *. apply not_elem_of_cons in Hk as [Hne Hk].
  rewrite IH by done. by rewrite lookup_insert_ne.
Qed.

Lemma literal_lookup_notin {V : Type} (items : list (string * V)) (k : string) :
  k ∉ items.*1 → PyDict.literal items !! k = None.
Proof.
  intros Hk. unfold PyDict.literal.
  by rewrite foldl_insert_lookup_notin, lookup_empty.
Qed.

(** C3.  The nine generic exchange codes survive the trip to the broker's
    code and back; a code whose upper-casing is not one of the nine is
    returned upper-cased; and the translation only looks at the
    upper-cased input, so it does not depend on the case of its
    argument. *)
Theorem exchange_roundtrip_and_passthrough :
  (∀ x : string,
      x ∈ ["NSE"; "BSE"; "NFO"; "BFO"; "CDS"; "BCD"; "MCX";
           "NSE_INDEX"; "BSE_INDEX"] →
      to_oa_exchange (to_upstox_exchange x) = x) ∧
  (∀ x : string,
      Str.upper x ∉ ["NSE"; "BSE"; "NFO"; "BFO"; "CDS"; "BCD"; "MCX";
                     "NSE_INDEX"; "BSE_INDEX"] →
      to_upstox_exchange x = Str.upper x) ∧
  (∀ x y : string,
      Str.upper x = Str.upper y →
      to_upstox_exchange x = to_upstox_exchange y).
Proof.
  split; [|split].
  - intros x Hx.
    repeat (apply elem_of_cons in Hx as [->|Hx]; [by vm_compute|]).
    by apply elem_of_nil in Hx.
  - intros x Hx. unfold to_upstox_exchange, PyDict.get, OA_TO_UPSTOX.
    by rewrite literal_lookup_notin.
  - intros x y Hxy. unfold to_upstox_exchange. by rewrite Hxy.
Qed.

Lemma exchange_roundtrip_and_passthrough_witness :
  to_oa_exchange (to_upstox_exchange "CDS") = "CDS" ∧
  to_upstox_exchange "nyse" = "NYSE" ∧
  to_upstox_exchange "nfo" = to_upstox_exchange "NFO".
Proof.
  destruct exchange_roundtrip_and_passthrough as (Hknown & Hunknown & Hcase).
  split; [|split].
  - apply Hknown. refine (bool_decide_unpack _ _); vm_compute; exact I.
  - apply (Hunknown "nyse"). refine (bool_decide_unpack _ _); vm_compute; exact I.
  - apply Hcase. reflexivity.
Defined.

(** C8.  A mode is supported exactly when it is one of ltpc,
    option_greeks, full, full_d30; the ceiling of any other mode is 0. *)
Theorem mode_supported_iff_listed :
  ∀ mode : string,
    (is_mode_supported mode = true ↔
       mode = "ltpc" ∨ mode = "option_greeks" ∨ mode = "full" ∨
       mode = "full_d30") ∧
    (mode ∉ ["ltpc"; "option_greeks"; "full"; "full_d30"] →
     get_max_subscriptions mode = 0%Z).
Proof.
  intros mode. unfold is_mode_supported, MODES. split.
  - rewrite bool_decide_eq_true, !elem_of_cons, elem_of_nil. tauto.
  - intros Hmode.
    unfold get_max_subscriptions, PyDict.get, MAX_SUBSCRIPTIONS.
    by rewrite literal_lookup_notin.
Qed.

Lemma mode_supported_iff_listed_witness :
  is_mode_supported "full" = true ∧ get_max_subscriptions "quote" = 0%Z.
Proof.
  split.
  - apply (mode_supported_iff_listed "full"). auto.
  - apply (mode_supported_iff_listed "quote").
    refine (bool_decide_unpack _ _); vm_compute; exact I.
Defined.

End Mapping.

(** Unfolds the monad and the environment down to pairs and
    constructors. *)
Ltac py_unfold :=
  cbv [Py.bind Py.ret Py.raise Py.try_except Py.modify Py.zoom Py.get
       UpstoxWebSocket.self UpstoxWebSocket.logger
       UpstoxWebSocket.lift UpstoxWebSocket.update
       UpstoxWebSocket._protobuf_to_dict
       UpstoxWebSocketAdapter.self UpstoxWebSocketAdapter.logger
       UpstoxWebSocketAdapter.update UpstoxWebSocketAdapter.record
       Env.write Env.set_host Env.say Env.waited Env.drew
       Env.host Env.log Env.owner Env.waits Env.draws
       binary_received decode_failed fst snd].

(** ** Frames and the receive loop *)

Section Frames.
Context `{codec : Codec} `{transport : Transport} {Owner : Type}.
Import UpstoxWebSocket.

#[local] Abbreviation World := (Env.World Dict Owner).
#[local] Abbreviation Host := (Env.Host Dict Owner).
#[local] Abbreviation Client := (@UpstoxWebSocket.t codec transport Owner).

Lemma call_eq (cb : Py.M Host unit) (c : Client) (w : World) :
  call cb (c, w) = (outcome_of cb w, (c, after cb w)).
Proof.
  unfold call, Py.zoom, outcome_of, after. simpl.
  by destruct (cb (Env.host w)).
Qed.

(** What the [except] branch does with [e]. *)
Lemma report_eq (ws : WebSocketApp) (e : exn) (c : Client) (w : World) :
  match on_error c with
  | Some cb => call (cb ws e)
  | None => λ s, (Returns tt, s)
  end (c, w)
  = match on_error c with
    | Some cb => (outcome_of (cb ws e) w, (c, after (cb ws e) w))
    | None => (Returns tt, (c, w))
    end.
Proof. destruct (on_error c); [apply call_eq|done]. Qed.

Lemma report_returns (ws : WebSocketApp) (e : exn) (c : Client) (w : World) :
  on_error_never_raises c →
  ∃ w',
    match on_error c with
    | Some cb => call (cb ws e)
    | None => λ s, (Returns tt, s)
    end (c, w) = (Returns tt, (c, w')).
Proof.
  unfold on_error_never_raises. intros Herr. rewrite report_eq.
  destruct (on_error c) as [cb|]; [|eauto].
  unfold outcome_of. rewrite Herr. eauto.
Qed.

Lemma _on_message_decode_failure (ws : WebSocketApp) (b : list byte) (e : exn)
    (c : Client) (w : World) :
  decode b = Raises e →
  _on_message ws (Bytes b) (c, w) =
    match on_error c with
    | Some cb =>
        (outcome_of (cb ws e) (decode_failed b e w),
         (c, after (cb ws e) (decode_failed b e w)))
    | None => (Returns tt, (c, decode_failed b e w))
    end.
Proof.
  unfold decode. intros Hdec. rewrite <- report_eq.
  destruct w as [[lg ow] wt dr].
  unfold _on_message. py_unfold.
  destruct (ParseFromString b) as [m|e1].
  - by rewrite Hdec.
  - by injection Hdec as ->.
Qed.

Lemma _on_message_decoded (ws : WebSocketApp) (b : list byte) (d : Dict)
    (c : Client) (w : World)
    (om : WebSocketApp → payload → Py.M Host unit) :
  decode b = Returns d →
  on_message c = Some om →
  never_raises (om ws) →
  _on_message ws (Bytes b) (c, w) =
    (Returns tt, (c, after (om ws (Decoded d)) (binary_received b w))).
Proof.
  unfold decode. intros Hdec Hom Htot. destruct w as [[lg ow] wt dr].
  unfold _on_message. py_unfold.
  destruct (ParseFromString b) as [m|e1]; [|done].
  rewrite Hdec, Hom, call_eq. unfold outcome_of. by rewrite Htot.
Qed.

(** A handler for a received frame leaves the object as it is and, when
    the error callback does not raise, returns. *)
Lemma _on_message_returns (ws : WebSocketApp) (m : message)
    (c : Client) (w : World) :
  on_error_never_raises c →
  ∃ w', _on_message ws m (c, w) = (Returns tt, (c, w')).
Proof.
  intros Herr. destruct w as [[lg ow] wt dr].
  unfold _on_message. py_unfold.
  destruct m as [b|s].
  - destruct (ParseFromString b) as [m|e1]; [|by apply report_returns].
    destruct (MessageToDict m) as [d|e2]; [|by apply report_returns].
    destruct (on_message c) as [om|]; [|eauto].
    rewrite call_eq.
    destruct (outcome_of _ _) as [[]|e3]; [eauto|by apply report_returns].
  - destruct (on_message c) as [om|]; [|eauto].
    rewrite call_eq.
    destruct (outcome_of _ _) as [[]|e3]; [eauto|by apply report_returns].
Qed.

Lemma run_forever_app (ws : WebSocketApp) (evs1 evs2 : list event) :
  ∀ st : St (Owner := Owner),
    run_forever ws (evs1 ++ evs2) st =
    (run_forever ws evs1 >> run_forever ws evs2) st.
Proof.
  induction evs1 as [|ev evs1 IH]; intros st; simpl.
  - done.
  - unfold Py.bind in *. destruct (dispatch ws ev st) as [[[]|e] st1]; [|done].
    apply IH.
Qed.

Lemma run_forever_received_returns (ws : WebSocketApp) (frames : list message)
    (c : Client) (w : World) :
  on_error_never_raises c →
  ∃ w', run_forever ws (map Received frames) (c, w) = (Returns tt, (c, w')).
Proof.
  intros Herr. revert w.
  induction frames as [|m frames IH]; intros w; simpl; [by eexists|].
  destruct (_on_message_returns ws m c w Herr) as [w1 Hm].
  unfold Py.bind. rewrite Hm. apply IH.
Qed.

(** The callbacks the adapter hands over only log: with them the receive
    loop gets through every sequence of frames. *)
Lemma adapter_client_survives_frames (ws : WebSocketApp) (token : string)
    (frames : list message) (w : World) :
  ∃ w', run_forever ws (map Received frames) (fresh_client token, w)
        = (Returns tt, (fresh_client token, w')).
Proof.
  apply run_forever_received_returns. intros ws' e h. reflexivity.
Qed.

(** C1.  When decoding a binary frame raises [e], the handler logs the
    failure and hands [e] to the [on_error] callback, and its outcome is
    that call's outcome: the decoder's exception does not leave the
    handler.  With an error callback that returns, the handler returns
    and leaves the client as it was, the receive loop gets through any
    sequence of frames, and a well-formed frame that follows is decoded
    and delivered to [on_message]. *)
Theorem decode_failure_is_isolated (ws : WebSocketApp) (c : Client) (w : World) :
  (∀ b e,
      decode b = Raises e →
      _on_message ws (Bytes b) (c, w) =
        match on_error c with
        | Some cb =>
            (outcome_of (cb ws e) (decode_failed b e w),
             (c, after (cb ws e) (decode_failed b e w)))
        | None => (Returns tt, (c, decode_failed b e w))
        end) ∧
  (on_error_never_raises c →
   (∀ b e,
       decode b = Raises e →
       ∃ w', _on_message ws (Bytes b) (c, w) = (Returns tt, (c, w'))) ∧
   (∀ frames,
       ∃ w', run_forever ws (map Received frames) (c, w)
             = (Returns tt, (c, w'))) ∧
   (∀ om before b d,
       on_message c = Some om →
       never_raises (om ws) →
       decode b = Returns d →
       ∃ w1,
         run_forever ws (map Received before) (c, w)
           = (Returns tt, (c, w1)) ∧
         run_forever ws (map Received (before ++ [Bytes b])) (c, w)
           = (Returns tt,
              (c, after (om ws (Decoded d)) (binary_received b w1))))).
Proof.
  split; [|intros Herr; split; [|split]].
  - intros b e Hdec. by apply _on_message_decode_failure.
  - intros b e _. by apply _on_message_returns.
  - intros frames. by apply run_forever_received_returns.
  - intros om before b d Hom Htot Hdec.
    destruct (run_forever_received_returns ws before c w Herr) as [w1 Hw1].
    exists w1. split; [done|].
    rewrite map_app, run_forever_app. unfold Py.bind. rewrite Hw1. simpl.
    unfold Py.bind.
    rewrite (_on_message_decoded ws b d c w1 om Hdec Hom Htot). done.
Qed.

End Frames.

(** The spec's scenario on the sample codec, with the adapter's callbacks:
    frame k is well-formed, frame k+1 is truncated, frame k+2 is
    well-formed. *)
Lemma decode_failure_is_isolated_witness :
  (∃ w', UpstoxWebSocket._on_message Sample.wire0
           (UpstoxWebSocket.Bytes Sample.frame_bad)
           (Sample.client0, Sample.world0)
         = (Returns tt, (Sample.client0, w'))) ∧
  (∃ w1,
      UpstoxWebSocket.run_forever Sample.wire0
        (map UpstoxWebSocket.Received
           [UpstoxWebSocket.Bytes Sample.frame_a;
            UpstoxWebSocket.Bytes Sample.frame_bad])
        (Sample.client0, Sample.world0)
      = (Returns tt, (Sample.client0, w1)) ∧
      UpstoxWebSocket.run_forever Sample.wire0
        (map UpstoxWebSocket.Received
           ([UpstoxWebSocket.Bytes Sample.frame_a;
             UpstoxWebSocket.Bytes Sample.frame_bad]
            ++ [UpstoxWebSocket.Bytes Sample.frame_b]))
        (Sample.client0, Sample.world0)
      = (Returns tt,
         (Sample.client0,
          after (UpstoxWebSocketAdapter._on_message Sample.wire0
                   (Sample.decoded [x50]))
                (binary_received Sample.frame_b w1)))).
Proof.
  destruct (decode_failure_is_isolated Sample.wire0 Sample.client0 Sample.world0)
    as [_ Hloop].
  assert (Herr : on_error_never_raises Sample.client0)
    by (intros ws e w; reflexivity).
  destruct (Hloop Herr) as (Hbad & _ & Hnext).
  split.
  - apply (Hbad Sample.frame_bad Sample.decode_error). reflexivity.
  - apply (Hnext UpstoxWebSocketAdapter._on_message).
    + reflexivity.
    + intros p w. reflexivity.
    + reflexivity.
Defined.

(** ** The wait of connect *)

Section Connect.
Context `{codec : Codec} `{transport : Transport} {Owner : Type}.
Import UpstoxWebSocket.

#[local] Abbreviation World := (Env.World Dict Owner).
#[local] Abbreviation Host := (Env.Host Dict Owner).
#[local] Abbreviation Client := (@UpstoxWebSocket.t codec transport Owner).
#[local] Abbreviation State := (@UpstoxWebSocket.St codec transport Owner).
#[local] Abbreviation keeps := (@keeps_waits codec transport Owner _).

Lemma keeps_waits_ret {A} (a : A) : keeps (Py.ret a).
Proof. done. Qed.

Lemma keeps_waits_bind {A B} (m : Py.M State A) (k : A → Py.M State B) :
  keeps_waits m → (∀ a, keeps (k a)) → keeps (Py.bind m k).
Proof.
  intros Hm Hk st. unfold Py.bind. specialize (Hm st).
  destruct (m st) as [[a|e] st1]; simpl in *; [|done].
  by rewrite Hk.
Qed.

Lemma keeps_waits_try {A} (m : Py.M State A) (h : exn → Py.M State A) :
  keeps_waits m → (∀ e, keeps (h e)) → keeps (Py.try_except m h).
Proof.
  intros Hm Hh st. unfold Py.try_except. specialize (Hm st).
  destruct (m st) as [[a|e] st1]; simpl in *; [done|].
  by rewrite Hh.
Qed.

Lemma keeps_waits_self : keeps self.
Proof. done. Qed.

Lemma keeps_waits_logger l text args : keeps (logger l text args).
Proof. done. Qed.

Lemma keeps_waits_update f : keeps (update f).
Proof. done. Qed.

Lemma keeps_waits_lift {A} (r : outcome A) : keeps (lift r).
Proof. done. Qed.

Lemma keeps_waits_call (cb : Py.M Host unit) : keeps (call cb).
Proof.
  intros st. unfold call, Py.zoom. by destruct (cb (Env.host st.2)).
Qed.

Lemma keeps_waits_callback {X} (o : option X) (f : X → Py.M Host unit) :
  keeps match o with
              | Some cb => call (f cb)
              | None => Py.ret tt
              end.
Proof. destruct o; [apply keeps_waits_call|done]. Qed.

Create HintDb waits discriminated.
Hint Resolve keeps_waits_ret keeps_waits_self keeps_waits_logger
  keeps_waits_update keeps_waits_lift keeps_waits_call
  keeps_waits_callback : waits.

Ltac keeps_waits :=
  repeat first
    [ apply keeps_waits_bind; [|intros ?]
    | apply keeps_waits_try; [|intros ?]
    | solve [auto with waits]
    | apply @keeps_waits_callback
    | match goal with |- keeps_waits (match ?x with _ => _ end) => destruct x end ].

Lemma keeps_waits_dispatch ws ev : keeps (dispatch ws ev).
Proof.
  destruct ev; unfold dispatch, _on_open, _on_message, _on_error, _on_close,
    _protobuf_to_dict; keeps_waits.
Qed.

Lemma keeps_waits_run_forever ws events : keeps (run_forever ws events).
Proof.
  induction events as [|ev events IH]; simpl; [done|].
  apply keeps_waits_bind; [apply keeps_waits_dispatch|done].
Qed.

Lemma keeps_waits_worker events : keeps (worker events).
Proof.
  unfold worker. apply keeps_waits_bind; [done|]. intros c.
  destruct (_thread c) as [[]|]; [|done..].
  destruct (ws c); [|done].
  apply keeps_waits_try; [apply keeps_waits_run_forever|].
  intros; apply keeps_waits_update.
Qed.

(** The worker never hands an exception to the thread it runs beside. *)
Lemma worker_returns events (st : State) : (worker events st).1 = Returns tt.
Proof.
  unfold worker, Py.bind, self. simpl.
  destruct (_thread st.1) as [[]|]; [|done..].
  destruct (ws st.1); [|done].
  unfold Py.try_except. by destruct (run_forever _ _ _) as [[[]|e] st1].
Qed.

Lemma _stop_event_wait_eq ms events (st : State) :
  _stop_event_wait ms events st
  = (Returns tt, (_stop_event_wait ms events st).2).
Proof.
  unfold _stop_event_wait, Py.bind, Py.modify.
  pose proof (worker_returns events (st.1, Env.waited ms st.2)) as Hw.
  destruct (worker _ _) as [r st1]. simpl in *. by subst.
Qed.

Lemma _stop_event_wait_waits ms events (st : State) :
  Env.waits (_stop_event_wait ms events st).2.2 = (Env.waits st.2 ++ [ms])%list.
Proof.
  unfold _stop_event_wait, Py.bind, Py.modify.
  pose proof (keeps_waits_worker events (st.1, Env.waited ms st.2)) as Hk.
  pose proof (worker_returns events (st.1, Env.waited ms st.2)) as Hw.
  destruct (worker _ _) as [r st1]. simpl in *. by subst.
Qed.

Lemma connect_opening_eq sched (st : State) :
  connect_opening sched st = (Returns tt, at_poll sched 0 st).
Proof.
  simpl. unfold connect_opening. py_unfold.
  match goal with |- context [worker (sched 0) ?s] =>
    pose proof (worker_returns (sched 0) s) as Hw;
    destruct (worker (sched 0) s) as [r st1]
  end.
  simpl in *. by subst.
Qed.

Lemma keeps_waits_connect_opening sched : keeps (connect_opening sched).
Proof.
  unfold connect_opening.
  do 4 (apply keeps_waits_bind; [auto with waits|intros ?]).
  apply keeps_waits_worker.
Qed.

Lemma at_poll_waits sched i (st : State) :
  Env.waits (at_poll sched i st).2 = (Env.waits st.2 ++ replicate i 100%Z)%list.
Proof.
  induction i as [|i IH].
  - simpl. rewrite keeps_waits_connect_opening. by rewrite app_nil_r.
  - simpl at_poll. rewrite _stop_event_wait_waits, IH.
    rewrite <- app_assoc. f_equal.
    change [100%Z] with (replicate 1 100%Z).
    rewrite <- replicate_add. f_equal. lia.
Qed.

Lemma first_from_Some (f : nat → bool) (n k i : nat) :
  first_from f k n = Some i ↔
  (k ≤ i < k + n)%nat ∧ f i = true ∧ ∀ j, (k ≤ j < i)%nat → f j = false.
Proof.
  revert k. induction n as [|n IH]; intros k; simpl.
  - split; [done|lia].
  - destruct (f k) eqn:Hk.
    + split.
      * intros [= <-]. repeat split; [lia..|done|lia].
      * intros (Hi & Hfi & Hlt). f_equal.
        destruct (decide (k = i)) as [|Hne]; [done|].
        rewrite Hlt in Hk by lia. done.
    + rewrite IH. split.
      * intros (Hi & Hfi & Hlt). repeat split; [lia..|done|].
        intros j Hj. destruct (decide (j = k)) as [->|]; [done|].
        apply Hlt. lia.
      * intros (Hi & Hfi & Hlt).
        assert (k ≠ i) by (intros ->; congruence).
        repeat split; [lia..|done|]. intros j Hj. apply Hlt. lia.
Qed.

Lemma first_from_None (f : nat → bool) (n k : nat) :
  first_from f k n = None ↔ ∀ i, (k ≤ i < k + n)%nat → f i = false.
Proof.
  revert k. induction n as [|n IH]; intros k; simpl.
  - split; [lia|done].
  - destruct (f k) eqn:Hk.
    + split; [done|]. intros Hall. rewrite Hall in Hk by lia. done.
    + rewrite IH. split.
      * intros Hall i Hi. destruct (decide (i = k)) as [->|]; [done|].
        apply Hall. lia.
      * intros Hall i Hi. apply Hall. lia.
Qed.

Lemma connect_loop_eq sched (st : State) (n k : nat) :
  connect_loop sched (seq k n) (at_poll sched k st) =
    match first_from (λ i, flag_at sched i st) k n with
    | Some i => (Returns (Some true), at_poll sched i st)
    | None => (Returns None, at_poll sched (k + n) st)
    end.
Proof.
  revert k. induction n as [|n IH]; intros k.
  - simpl. by rewrite Nat.add_0_r.
  - cbn [seq connect_loop first_from]. unfold Py.bind at 1, self at 1.
    cbn [fst]. fold (flag_at sched k st).
    destruct (flag_at sched k st); [done|].
    unfold Py.bind at 1. rewrite _stop_event_wait_eq.
    change (_stop_event_wait 100 (sched (S k)) (at_poll sched k st)).2
      with (at_poll sched (S k) st).
    rewrite IH. by rewrite Nat.add_succ_r.
Qed.

Lemma timed_out_waits (st : State) :
  Env.waits (timed_out st).2 = Env.waits st.2.
Proof. by destruct st. Qed.

Lemma connect_eq sched (st : State) :
  connect sched st =
    match first_from (λ i, flag_at sched i st) 0 30 with
    | Some i => (Returns true, at_poll sched i st)
    | None => (Returns false, timed_out (at_poll sched 30 st))
    end.
Proof.
  transitivity
    ((connect_opening sched >>
      let* r := connect_loop sched (seq 0 30) in
      match r with
      | Some v => Py.ret v
      | None =>
          logger Env.DEBUG "WebSocket connection attempt timed out." [] >>
          Py.ret false
      end) st).
  { cbv [connect connect_opening Py.bind self logger update Py.modify fst snd].
    by destruct (worker (sched 0) _) as [[[]|e] st1]. }
  unfold Py.bind at 1. rewrite connect_opening_eq.
  unfold Py.bind at 1. rewrite connect_loop_eq.
  destruct (first_from _ 0 30); [done|].
  cbv [Py.bind logger Py.modify Py.ret timed_out].
  reflexivity.
Qed.

Lemma connect_returns sched (st : State) :
  ∃ v st1, connect sched st = (Returns v, st1).
Proof.
  rewrite connect_eq. destruct (first_from _ 0 30); eauto.
Qed.

(** C6.  [connect] looks at the connected flag at most 30 times, with a
    wait of 100 ms before each further look.  If look [i] (of the looks
    0..29) is the first to find the flag set, [connect] returns [True]
    right there, after [i] waits.  If none of the 30 looks finds it
    set, [connect] returns [False] after 30 waits.  It never raises. *)
Theorem connect_polls_at_most_30_times
    (sched : nat → list event) (st : State) :
  (∀ i,
      (i < 30)%nat →
      flag_at sched i st = true →
      (∀ j, (j < i)%nat → flag_at sched j st = false) →
      connect sched st = (Returns true, at_poll sched i st)) ∧
  ((∀ i, (i < 30)%nat → flag_at sched i st = false) →
   connect sched st = (Returns false, timed_out (at_poll sched 30 st))) ∧
  (∃ (v : bool) (n : nat),
      (connect sched st).1 = Returns v ∧
      (n ≤ 30)%nat ∧
      Env.waits (connect sched st).2.2
      = (Env.waits st.2 ++ replicate n 100%Z)%list) ∧
  (∀ i,
      Env.waits (at_poll sched i st).2
      = (Env.waits st.2 ++ replicate i 100%Z)%list).
Proof.
  split; [|split; [|split]].
  - intros i Hi Hflag Hfirst. rewrite connect_eq.
    assert (first_from (λ i, flag_at sched i st) 0 30 = Some i) as ->; [|done].
    apply first_from_Some. repeat split; [lia..|done|].
    intros j Hj. apply Hfirst. lia.
  - intros Hnone. rewrite connect_eq.
    assert (first_from (λ i, flag_at sched i st) 0 30 = None) as ->; [|done].
    apply first_from_None. intros i Hi. apply Hnone. lia.
  - rewrite connect_eq.
    destruct (first_from _ 0 30) as [i|] eqn:Hfirst.
    + apply first_from_Some in Hfirst as (Hi & _).
      exists true, i. cbn [fst snd]. split; [reflexivity|]. split; [lia|].
      apply at_poll_waits.
    + exists false, 30. cbn [fst snd].
      split; [reflexivity|]. split; [lia|].
      rewrite timed_out_waits. apply at_poll_waits.
  - intros i. apply at_poll_waits.
Qed.

End Connect.

(** On the sample transport: the connection opens during the third wait,
    so the fourth look finds the flag; and a transport that never opens. *)
Lemma connect_polls_at_most_30_times_witness :
  UpstoxWebSocket.connect (Sample.opens_at 3) (Sample.client0, Sample.world0)
  = (Returns true, at_poll (Sample.opens_at 3) 3 (Sample.client0, Sample.world0)) ∧
  UpstoxWebSocket.connect Sample.silent (Sample.client0, Sample.world0)
  = (Returns false,
     timed_out (at_poll Sample.silent 30 (Sample.client0, Sample.world0))).
Proof.
  split.
  - apply (proj1 (connect_polls_at_most_30_times
                    (Sample.opens_at 3) (Sample.client0, Sample.world0))).
    + lia.
    + vm_compute. reflexivity.
    + intros j Hj. destruct j as [|[|[|j]]]; [vm_compute; reflexivity..|lia].
  - apply (proj1 (proj2 (connect_polls_at_most_30_times
                           Sample.silent (Sample.client0, Sample.world0)))).
    intros i Hi.
    do 30 (destruct i as [|i]; [vm_compute; reflexivity|]). lia.
Defined.

(** ** The adapter *)

Section AdapterProperties.
Context `{codec : Codec} `{transport : Transport} `{uuid : Uuid}
        {Owner : Type}.
Import UpstoxWebSocketAdapter.

#[local] Abbreviation World := (Env.World Dict Owner).
#[local] Abbreviation Client := (@UpstoxWebSocket.t codec transport Owner).
#[local] Abbreviation Adapter := (@UpstoxWebSocketAdapter.t codec transport Owner).

Lemma ws_client_call_eq {A} (method : string)
    (m : Py.M (UpstoxWebSocket.St (Owner := Owner)) A)
    (a : Adapter) (w : World) (c : Client) r st1 :
  ws_client a = Some c →
  m (c, w) = (r, st1) →
  ws_client_call method m (a, w) = (r, (set_ws_client (Some st1.1) a, st1.2)).
Proof.
  intros Hc Hm. unfold ws_client_call, Py.bind, self. cbn [fst snd].
  rewrite Hc. cbn [fst snd]. rewrite Hm. by destruct st1.
Qed.

Lemma ws_client_call_None {A} (method : string)
    (m : Py.M (UpstoxWebSocket.St (Owner := Owner)) A)
    (a : Adapter) (w : World) :
  ws_client a = None →
  ws_client_call method m (a, w)
  = (Raises (Py.AttributeError
               ("'NoneType' object has no attribute '" ++ method ++ "'")),
     (a, w)).
Proof.
  intros Hc. unfold ws_client_call, Py.bind, self. cbn [fst snd].
  by rewrite Hc.
Qed.

(** What [subscribe] does, by the outcome of the client's call. *)
Lemma subscribe_eq (symbol exchange mode : string) (depth_level : Z)
    (a : Adapter) (w : World) (c : Client) r st1 :
  ws_client a = Some c →
  UpstoxWebSocket.subscribe (uuid4 (Env.draws w)) mode
    [instrument_key symbol exchange]
    (c, subscribing symbol exchange mode w) = (r, st1) →
  subscribe symbol exchange mode depth_level (a, w) =
    match r with
    | Returns _ =>
        (Returns (ack "subscribed" symbol exchange mode),
         (set_subscriptions
            (<[(symbol, exchange, mode) := true]> (subscriptions a))
            (set_ws_client (Some st1.1) a),
          st1.2))
    | Raises e => (Raises e, (set_ws_client (Some st1.1) a, st1.2))
    end.
Proof.
  intros Hc Hcall.
  unfold subscribe. unfold Py.bind at 1. unfold new_guid. cbn [fst snd].
  unfold Py.bind at 1. unfold logger at 1, Py.modify. cbn [fst snd].
  unfold Py.bind at 1.
  rewrite (ws_client_call_eq _ _ _ _ c r st1 Hc Hcall).
  destruct r as [[]|e]; [|done].
  by destruct a.
Qed.

Lemma unsubscribe_eq (symbol exchange mode : string)
    (a : Adapter) (w : World) (c : Client) r st1 :
  ws_client a = Some c →
  UpstoxWebSocket.unsubscribe (uuid4 (Env.draws w))
    [instrument_key symbol exchange]
    (c, unsubscribing symbol exchange mode w) = (r, st1) →
  unsubscribe symbol exchange mode (a, w) =
    match r with
    | Returns _ =>
        (Returns (ack "unsubscribed" symbol exchange mode),
         (set_subscriptions
            (delete (symbol, exchange, mode) (subscriptions a))
            (set_ws_client (Some st1.1) a),
          st1.2))
    | Raises e => (Raises e, (set_ws_client (Some st1.1) a, st1.2))
    end.
Proof.
  intros Hc Hcall.
  unfold unsubscribe. unfold Py.bind at 1. unfold new_guid. cbn [fst snd].
  unfold Py.bind at 1. unfold logger at 1, Py.modify. cbn [fst snd].
  unfold Py.bind at 1.
  rewrite (ws_client_call_eq _ _ _ _ c r st1 Hc Hcall).
  destruct r as [[]|e]; [|done].
  by destruct a.
Qed.

Lemma subscribe_None (symbol exchange mode : string) (depth_level : Z)
    (a : Adapter) (w : World) :
  ws_client a = None →
  subscribe symbol exchange mode depth_level (a, w)
  = (Raises (Py.AttributeError
               "'NoneType' object has no attribute 'subscribe'"),
     (a, subscribing symbol exchange mode w)).
Proof.
  intros Hc.
  unfold subscribe. unfold Py.bind at 1. unfold new_guid. cbn [fst snd].
  unfold Py.bind at 1. unfold logger at 1, Py.modify. cbn [fst snd].
  unfold Py.bind at 1.
  by rewrite ws_client_call_None.
Qed.

Lemma unsubscribe_None (symbol exchange mode : string)
    (a : Adapter) (w : World) :
  ws_client a = None →
  unsubscribe symbol exchange mode (a, w)
  = (Raises (Py.AttributeError
               "'NoneType' object has no attribute 'unsubscribe'"),
     (a, unsubscribing symbol exchange mode w)).
Proof.
  intros Hc.
  unfold unsubscribe. unfold Py.bind at 1. unfold new_guid. cbn [fst snd].
  unfold Py.bind at 1. unfold logger at 1, Py.modify. cbn [fst snd].
  unfold Py.bind at 1.
  by rewrite ws_client_call_None.
Qed.

Lemma subscribe_outcome (symbol exchange mode : string) (depth_level : Z)
    (a : Adapter) (w : World) :
  match (subscribe symbol exchange mode depth_level (a, w)).1 with
  | Returns r =>
      r = ack "subscribed" symbol exchange mode ∧
      subscriptions (subscribe symbol exchange mode depth_level (a, w)).2.1
      = <[(symbol, exchange, mode) := true]> (subscriptions a)
  | Raises _ =>
      subscriptions (subscribe symbol exchange mode depth_level (a, w)).2.1
      = subscriptions a
  end.
Proof.
  destruct (ws_client a) as [c|] eqn:Hc.
  - destruct (UpstoxWebSocket.subscribe (uuid4 (Env.draws w)) mode
                [instrument_key symbol exchange]
                (c, subscribing symbol exchange mode w)) as [r st1] eqn:Hcall.
    rewrite (subscribe_eq _ _ _ depth_level _ _ _ _ _ Hc Hcall).
    by destruct r.
  - by rewrite subscribe_None.
Qed.

Lemma unsubscribe_outcome (symbol exchange mode : string)
    (a : Adapter) (w : World) :
  match (unsubscribe symbol exchange mode (a, w)).1 with
  | Returns r =>
      r = ack "unsubscribed" symbol exchange mode ∧
      subscriptions (unsubscribe symbol exchange mode (a, w)).2.1
      = delete (symbol, exchange, mode) (subscriptions a)
  | Raises _ =>
      subscriptions (unsubscribe symbol exchange mode (a, w)).2.1
      = subscriptions a
  end.
Proof.
  destruct (ws_client a) as [c|] eqn:Hc.
  - destruct (UpstoxWebSocket.unsubscribe (uuid4 (Env.draws w))
                [instrument_key symbol exchange]
                (c, unsubscribing symbol exchange mode w)) as [r st1] eqn:Hcall.
    rewrite (unsubscribe_eq _ _ _ _ _ _ _ _ Hc Hcall).
    by destruct r.
  - by rewrite unsubscribe_None.
Qed.

(** C10.  [subscribe] sends before it records.  If the client's call
    raises, the same exception leaves [subscribe], no acknowledgement is
    returned and the subscription set is as before; the key is recorded
    exactly when [subscribe] returns, which it does with the
    acknowledgement. *)
Theorem subscribe_is_atomic_on_error (symbol exchange mode : string)
    (depth_level : Z) (a : Adapter) (w : World) :
  (∀ c e st1,
      ws_client a = Some c →
      UpstoxWebSocket.subscribe (uuid4 (Env.draws w)) mode
        [instrument_key symbol exchange]
        (c, subscribing symbol exchange mode w) = (Raises e, st1) →
      subscribe symbol exchange mode depth_level (a, w)
      = (Raises e, (set_ws_client (Some st1.1) a, st1.2)) ∧
      subscriptions (set_ws_client (Some st1.1) a) = subscriptions a) ∧
  match (subscribe symbol exchange mode depth_level (a, w)).1 with
  | Returns r =>
      r = ack "subscribed" symbol exchange mode ∧
      subscriptions (subscribe symbol exchange mode depth_level (a, w)).2.1
      = <[(symbol, exchange, mode) := true]> (subscriptions a)
  | Raises _ =>
      subscriptions (subscribe symbol exchange mode depth_level (a, w)).2.1
      = subscriptions a
  end.
Proof.
  split; [|apply subscribe_outcome].
  intros c e st1 Hc Hcall. split; [|done].
  by rewrite (subscribe_eq _ _ _ depth_level _ _ _ _ _ Hc Hcall).
Qed.

(** C2, as the code has it.  [unsubscribe] sends before it removes.
    When the client's call returns, the key is removed from the
    subscription set (whether or not it was there) and the
    acknowledgement is returned.  When the client's call raises, the
    same exception leaves [unsubscribe] and the subscription set is as
    before. *)
Theorem unsubscribe_removes_key_when_send_returns
    (symbol exchange mode : string) (a : Adapter) (w : World) :
  (∀ c st1,
      ws_client a = Some c →
      UpstoxWebSocket.unsubscribe (uuid4 (Env.draws w))
        [instrument_key symbol exchange]
        (c, unsubscribing symbol exchange mode w) = (Returns tt, st1) →
      unsubscribe symbol exchange mode (a, w)
      = (Returns (ack "unsubscribed" symbol exchange mode),
         (set_subscriptions
            (delete (symbol, exchange, mode) (subscriptions a))
            (set_ws_client (Some st1.1) a),
          st1.2))) ∧
  (∀ c e st1,
      ws_client a = Some c →
      UpstoxWebSocket.unsubscribe (uuid4 (Env.draws w))
        [instrument_key symbol exchange]
        (c, unsubscribing symbol exchange mode w) = (Raises e, st1) →
      unsubscribe symbol exchange mode (a, w)
      = (Raises e, (set_ws_client (Some st1.1) a, st1.2)) ∧
      subscriptions (set_ws_client (Some st1.1) a) = subscriptions a) ∧
  match (unsubscribe symbol exchange mode (a, w)).1 with
  | Returns _ =>
      subscriptions (unsubscribe symbol exchange mode (a, w)).2.1
        !! (symbol, exchange, mode) = None
  | Raises _ =>
      subscriptions (unsubscribe symbol exchange mode (a, w)).2.1
      = subscriptions a
  end.
Proof.
  split; [|split].
  - intros c st1 Hc Hcall.
    by rewrite (unsubscribe_eq _ _ _ _ _ _ _ _ Hc Hcall).
  - intros c e st1 Hc Hcall. split; [|done].
    by rewrite (unsubscribe_eq _ _ _ _ _ _ _ _ Hc Hcall).
  - pose proof (unsubscribe_outcome symbol exchange mode a w) as Hout.
    destruct (unsubscribe symbol exchange mode (a, w)).1; [|done].
    destruct Hout as [_ ->]. apply lookup_delete_eq.
Qed.

(** C7.  From an empty subscription set, a [subscribe] and an
    [unsubscribe] of the same key that both return (their sends
    succeeded) leave the set empty.  For a key that is not in the set,
    [unsubscribe] leaves the set as it is, and it returns its
    acknowledgement when the client's call returns: the missing key
    raises nothing. *)
Theorem subscribe_then_unsubscribe (symbol exchange mode : string)
    (depth_level : Z) (a : Adapter) (w : World) :
  (subscriptions a = ∅ →
   Py.returned (subscribe symbol exchange mode depth_level (a, w)).1 = true →
   Py.returned
     (unsubscribe symbol exchange mode
        (subscribe symbol exchange mode depth_level (a, w)).2).1 = true →
   subscriptions
     (unsubscribe symbol exchange mode
        (subscribe symbol exchange mode depth_level (a, w)).2).2.1 = ∅) ∧
  (subscriptions a !! (symbol, exchange, mode) = None →
   subscriptions (unsubscribe symbol exchange mode (a, w)).2.1
   = subscriptions a ∧
   ∀ c st1,
     ws_client a = Some c →
     UpstoxWebSocket.unsubscribe (uuid4 (Env.draws w))
       [instrument_key symbol exchange]
       (c, unsubscribing symbol exchange mode w) = (Returns tt, st1) →
     (unsubscribe symbol exchange mode (a, w)).1
     = Returns (ack "unsubscribed" symbol exchange mode)).
Proof.
  split.
  - intros Hempty Hsub Hunsub.
    pose proof (subscribe_outcome symbol exchange mode depth_level a w) as H1.
    destruct (subscribe symbol exchange mode depth_level (a, w))
      as [r1 [a1 w1]].
    cbn [fst snd] in *. destruct r1 as [r1|]; [|done].
    destruct H1 as [_ H1].
    pose proof (unsubscribe_outcome symbol exchange mode a1 w1) as H2.
    destruct (unsubscribe symbol exchange mode (a1, w1)) as [r2 [a2 w2]].
    cbn [fst snd] in *. destruct r2 as [r2|]; [|done].
    destruct H2 as [_ ->]. rewrite H1, Hempty.
    by rewrite delete_insert_eq, delete_empty.
  - intros Habsent. split.
    + pose proof (unsubscribe_outcome symbol exchange mode a w) as Hout.
      destruct (unsubscribe symbol exchange mode (a, w)).1; [|done].
      destruct Hout as [_ ->]. by apply delete_id.
    + intros c st1 Hc Hcall.
      by rewrite (unsubscribe_eq _ _ _ _ _ _ _ _ Hc Hcall).
Qed.


(** *** connect *)

Lemma connect_with_token sched (a : Adapter) (w : World) token v st1 :
  access_token a = Some token →
  Py.truthy (Some token) = true →
  UpstoxWebSocket.connect sched (fresh_client token, w) = (Returns v, st1) →
  connect sched (a, w)
  = (Returns tt, (set_running true (set_ws_client (Some st1.1) a), st1.2)).
Proof.
  intros Htoken Htruthy Hcall.
  unfold connect. unfold Py.bind at 1, self at 1. cbn [fst snd].
  rewrite Htoken. destruct token as [|ch token]; [done|].
  unfold Py.bind at 1, update at 1, Py.modify. cbn [fst snd].
  unfold Py.bind at 1.
  erewrite ws_client_call_eq; [|reflexivity|exact Hcall].
  by destruct a.
Qed.

(** [initialize] stores a token only if it is a non-empty string, so an
    adapter that got its token there holds [None] or a truthy token. *)
Lemma initialize_stores_truthy_token `{auth_db : AuthDb}
    (broker_name : string) (user_id : option string) (a : Adapter) (w : World) :
  access_token (initialize broker_name user_id (a, w)).2.1 = access_token a ∨
  Py.truthy (access_token (initialize broker_name user_id (a, w)).2.1) = true.
Proof.
  unfold initialize, Py.bind, update, logger, Py.modify. cbn [fst snd].
  destruct user_id as [[|ch u]|]; cbn [Py.truthy fst snd]; auto.
  destruct (get_auth_token (String ch u)) as [[|ch' token]|];
    cbn [Py.truthy fst snd]; auto.
Qed.

(** C4.  Without an access token ([None] or the empty string),
    [connect] raises at once: no client is constructed and nothing is
    logged, waited for or sent, the adapter and the environment are as
    before.  With a token the credential check raises nothing: the
    client is constructed with the token, its [connect] is run, and
    [connect] returns. *)
Theorem connect_requires_token
    (sched : nat → list UpstoxWebSocket.event) (a : Adapter) (w : World) :
  (Py.truthy (access_token a) = false →
   connect sched (a, w)
   = (Raises (Py.Exception
                "Upstox access_token required for WebSocket connection."),
      (a, w))) ∧
  (Py.truthy (access_token a) = true →
   ∃ token v st1,
     access_token a = Some token ∧
     UpstoxWebSocket.connect sched (fresh_client token, w) = (Returns v, st1) ∧
     connect sched (a, w)
     = (Returns tt, (set_running true (set_ws_client (Some st1.1) a), st1.2))).
Proof.
  split.
  - intros Hfalsy. unfold connect, Py.bind, self. cbn [fst snd].
    by destruct (access_token a) as [[|ch token]|].
  - intros Htruthy. destruct (access_token a) as [token|] eqn:Htoken; [|done].
    destruct (connect_returns sched (fresh_client token, w)) as (v & st1 & Hcall).
    exists token, v, st1. split; [done|]. split; [done|].
    by apply (connect_with_token sched a w token v st1).
Qed.

(** C9.  With a token, [connect] returns and leaves [running] set,
    whatever the client's [connect] returned: also when that timed out
    and returned [False]. *)
Theorem connect_sets_running_regardless
    (sched : nat → list UpstoxWebSocket.event) (a : Adapter) (w : World) :
  Py.truthy (access_token a) = true →
  (connect sched (a, w)).1 = Returns tt ∧
  running (connect sched (a, w)).2.1 = true ∧
  (∀ token st1,
      access_token a = Some token →
      UpstoxWebSocket.connect sched (fresh_client token, w)
      = (Returns false, st1) →
      connect sched (a, w)
      = (Returns tt, (set_running true (set_ws_client (Some st1.1) a), st1.2))).
Proof.
  intros Htruthy.
  destruct (access_token a) as [token|] eqn:Htoken; [|done].
  destruct (connect_returns sched (fresh_client token, w)) as (v & st1 & Hcall).
  rewrite (connect_with_token sched a w token v st1 Htoken Htruthy Hcall).
  repeat split.
  intros token' st1' [= <-] Hfalse.
  rewrite Hfalse in Hcall. by injection Hcall as <- <-.
Qed.

(** *** The text on the wire *)

Lemma string_app_assoc (s1 s2 s3 : string) : (s1 ++ s2) ++ s3 = s1 ++ s2 ++ s3.
Proof.
  induction s1 as [|ch s1 IH]; [done|].
  change (String ch ((s1 ++ s2) ++ s3) = String ch (s1 ++ s2 ++ s3)).
  by rewrite IH.
Qed.

Lemma dumps_subscribe_req (guid mode : string) (keys : list string) :
  Json.dumps (UpstoxWebSocket.subscribe_req guid mode keys)
  = spec_subscribe_text guid mode keys.
Proof.
  unfold UpstoxWebSocket.subscribe_req, spec_subscribe_text.
  cbn [Json.dumps map Str.join fst snd]. rewrite map_map.
  unfold Json.encode_str, quoted. rewrite !string_app_assoc. reflexivity.
Qed.

Lemma dumps_unsubscribe_req (guid : string) (keys : list string) :
  Json.dumps (UpstoxWebSocket.unsubscribe_req guid keys)
  = spec_unsubscribe_text guid keys.
Proof.
  unfold UpstoxWebSocket.unsubscribe_req, spec_unsubscribe_text.
  cbn [Json.dumps map Str.join fst snd]. rewrite map_map.
  unfold Json.encode_str, quoted. rewrite !string_app_assoc. reflexivity.
Qed.

Lemma ws_send_eq (text : string) (c : Client) (w : World) app r app' :
  UpstoxWebSocket.ws c = Some app →
  WebSocketApp_send text app = (r, app') →
  UpstoxWebSocket.ws_send text (c, w)
  = (r, (UpstoxWebSocket.set_ws (Some app') c, w)).
Proof.
  intros Hws Hsend.
  unfold UpstoxWebSocket.ws_send, Py.bind, UpstoxWebSocket.self.
  cbn [fst snd]. rewrite Hws, Hsend. reflexivity.
Qed.

Lemma client_subscribe_eq (guid mode : string) (keys : list string)
    (c : Client) (w : World) app r app' :
  UpstoxWebSocket.ws c = Some app →
  WebSocketApp_send (spec_subscribe_text guid mode keys) app = (r, app') →
  UpstoxWebSocket.subscribe guid mode keys (c, w)
  = (r, (UpstoxWebSocket.set_ws (Some app') c,
         client_subscribing guid mode keys w)).
Proof.
  intros Hws Hsend. unfold UpstoxWebSocket.subscribe.
  unfold Py.bind at 1, UpstoxWebSocket.logger, Py.modify. cbn [fst snd].
  rewrite dumps_subscribe_req.
  by rewrite (ws_send_eq _ _ _ _ _ _ Hws Hsend).
Qed.

Lemma client_unsubscribe_eq (guid : string) (keys : list string)
    (c : Client) (w : World) app r app' :
  UpstoxWebSocket.ws c = Some app →
  WebSocketApp_send (spec_unsubscribe_text guid keys) app = (r, app') →
  UpstoxWebSocket.unsubscribe guid keys (c, w)
  = (r, (UpstoxWebSocket.set_ws (Some app') c,
         client_unsubscribing guid keys w)).
Proof.
  intros Hws Hsend. unfold UpstoxWebSocket.unsubscribe.
  unfold Py.bind at 1, UpstoxWebSocket.logger, Py.modify. cbn [fst snd].
  rewrite dumps_unsubscribe_req.
  by rewrite (ws_send_eq _ _ _ _ _ _ Hws Hsend).
Qed.

(** C5.  The client's [subscribe] hands the transport exactly one text,
    the sub message with guid, mode and instrument keys; [unsubscribe]
    exactly one text, the unsub message with guid and instrument keys
    and no mode.  The adapter's [subscribe] sends the sub message whose
    only instrument key is the broker's exchange code, a bar and the
    symbol: for RELIANCE on NSE that is NSE_EQ|RELIANCE. *)
Theorem control_messages_on_the_wire (c : Client) (w : World)
    (app : WebSocketApp) :
  UpstoxWebSocket.ws c = Some app →
  (∀ guid mode keys r app',
      WebSocketApp_send (spec_subscribe_text guid mode keys) app = (r, app') →
      UpstoxWebSocket.subscribe guid mode keys (c, w)
      = (r, (UpstoxWebSocket.set_ws (Some app') c,
             client_subscribing guid mode keys w))) ∧
  (∀ guid keys r app',
      WebSocketApp_send (spec_unsubscribe_text guid keys) app = (r, app') →
      UpstoxWebSocket.unsubscribe guid keys (c, w)
      = (r, (UpstoxWebSocket.set_ws (Some app') c,
             client_unsubscribing guid keys w))) ∧
  (∀ (a : Adapter) symbol exchange mode depth_level app',
      ws_client a = Some c →
      WebSocketApp_send
        (spec_subscribe_text (uuid4 (Env.draws w)) mode
           [UpstoxExchangeMapper.to_upstox_exchange exchange ++ "|" ++ symbol])
        app = (Returns tt, app') →
      subscribe symbol exchange mode depth_level (a, w)
      = (Returns (ack "subscribed" symbol exchange mode),
         (set_subscriptions
            (<[(symbol, exchange, mode) := true]> (subscriptions a))
            (set_ws_client (Some (UpstoxWebSocket.set_ws (Some app') c)) a),
          client_subscribing (uuid4 (Env.draws w)) mode
            [UpstoxExchangeMapper.to_upstox_exchange exchange ++ "|" ++ symbol]
            (subscribing symbol exchange mode w)))) ∧
  instrument_key "RELIANCE" "NSE" = "NSE_EQ|RELIANCE".
Proof.
  intros Hws. split; [|split; [|split]].
  - intros guid mode keys r app' Hsend.
    by apply (client_subscribe_eq _ _ _ _ _ app).
  - intros guid keys r app' Hsend.
    by apply (client_unsubscribe_eq _ _ _ _ app).
  - intros a symbol exchange mode depth_level app' Hc Hsend.
    rewrite (subscribe_eq symbol exchange mode depth_level a w c (Returns tt)
               (UpstoxWebSocket.set_ws (Some app') c,
                client_subscribing (uuid4 (Env.draws w)) mode
                  [instrument_key symbol exchange]
                  (subscribing symbol exchange mode w))); [done..|].
    by apply (client_subscribe_eq _ _ _ _ _ app).
  - reflexivity.
Qed.

End AdapterProperties.

(** ** The properties on the sample collaborators *)

Section OnSamples.
Import Sample UpstoxWebSocketAdapter.

(** The connection is gone: the send raises, so does [subscribe], and
    nothing is recorded. *)
Lemma subscribe_is_atomic_on_error_witness :
  let st1 :=
    (UpstoxWebSocket.subscribe (uuid4 0) "ltpc" ["NSE_EQ|RELIANCE"]
       (client_on false, subscribing "RELIANCE" "NSE" "ltpc" world0)).2 in
  subscribe "RELIANCE" "NSE" "ltpc" 5 (stranded_adapter ∅, world0)
  = (Raises closed_error,
     (set_ws_client (Some st1.1) (stranded_adapter ∅), st1.2)) ∧
  subscriptions (set_ws_client (Some st1.1) (stranded_adapter ∅)) = ∅.
Proof.
  intros st1.
  apply (proj1 (subscribe_is_atomic_on_error "RELIANCE" "NSE" "ltpc" 5
                  (stranded_adapter ∅) world0)
           (client_on false) closed_error st1).
  - reflexivity.
  - reflexivity.
Defined.

(** C2 fails on the code: the key is subscribed, the connection is
    gone, [unsubscribe] raises what the send raised, and the key is
    still in the subscription set. *)
Lemma unsubscribe_keeps_key_when_send_raises :
  (unsubscribe "RELIANCE" "NSE" "ltpc"
     (stranded_adapter {[ reliance := true ]}, world0)).1
  = Raises closed_error ∧
  subscriptions
    (unsubscribe "RELIANCE" "NSE" "ltpc"
       (stranded_adapter {[ reliance := true ]}, world0)).2.1 !! reliance
  = Some true.
Proof. split; vm_compute; reflexivity. Qed.

Lemma unsubscribe_removes_key_when_send_returns_witness :
  let st1 :=
    (UpstoxWebSocket.unsubscribe (uuid4 0) ["NSE_EQ|RELIANCE"]
       (client_on true, unsubscribing "RELIANCE" "NSE" "ltpc" world0)).2 in
  unsubscribe "RELIANCE" "NSE" "ltpc"
    (connected_adapter {[ reliance := true ]}, world0)
  = (Returns (ack "unsubscribed" "RELIANCE" "NSE" "ltpc"),
     (set_subscriptions
        (delete ("RELIANCE", "NSE", "ltpc")
           (subscriptions (connected_adapter {[ reliance := true ]})))
        (set_ws_client (Some st1.1) (connected_adapter {[ reliance := true ]})),
      st1.2)).
Proof.
  intros st1.
  apply (proj1 (unsubscribe_removes_key_when_send_returns
                  "RELIANCE" "NSE" "ltpc"
                  (connected_adapter {[ reliance := true ]}) world0)
           (client_on true) st1).
  - reflexivity.
  - reflexivity.
Defined.

Lemma subscribe_then_unsubscribe_witness :
  subscriptions
    (unsubscribe "RELIANCE" "NSE" "ltpc"
       (subscribe "RELIANCE" "NSE" "ltpc" 5 (connected_adapter ∅, world0)).2).2.1
  = ∅ ∧
  subscriptions
    (unsubscribe "TCS" "BSE" "full" (connected_adapter ∅, world0)).2.1 = ∅.
Proof.
  split.
  - apply (proj1 (subscribe_then_unsubscribe "RELIANCE" "NSE" "ltpc" 5
                    (connected_adapter ∅) world0)).
    + reflexivity.
    + vm_compute. reflexivity.
    + vm_compute. reflexivity.
  - apply (proj2 (subscribe_then_unsubscribe "TCS" "BSE" "full" 5
                    (connected_adapter ∅) world0)).
    reflexivity.
Defined.

(** No token: the exception, and nothing else.  A token: the client. *)
Lemma connect_requires_token_witness :
  connect silent (__init__, world0)
  = (Raises (Py.Exception
               "Upstox access_token required for WebSocket connection."),
     (__init__, world0)) ∧
  ∃ token v st1,
    access_token (adapter_with None ∅) = Some token ∧
    UpstoxWebSocket.connect (opens_at 1) (fresh_client token, world0)
    = (Returns v, st1) ∧
    connect (opens_at 1) (adapter_with None ∅, world0)
    = (Returns tt,
       (set_running true (set_ws_client (Some st1.1) (adapter_with None ∅)),
        st1.2)).
Proof.
  split.
  - apply (proj1 (connect_requires_token silent __init__ world0)).
    reflexivity.
  - apply (proj2 (connect_requires_token (opens_at 1)
                    (adapter_with None ∅) world0)).
    reflexivity.
Defined.

(** The transport never opens: the client's [connect] returns [False]
    with the flag unset, and [running] is set all the same. *)
Lemma connect_sets_running_regardless_witness :
  (connect silent (adapter_with None ∅, world0)).1 = Returns tt ∧
  running (connect silent (adapter_with None ∅, world0)).2.1 = true ∧
  (UpstoxWebSocket.connect silent
     (fresh_client "eyJ0eXAiOiJKV1Qi", world0)).1 = Returns false ∧
  UpstoxWebSocket.connected
    (UpstoxWebSocket.connect silent
       (fresh_client "eyJ0eXAiOiJKV1Qi", world0)).2.1 = false.
Proof.
  destruct (connect_sets_running_regardless silent (adapter_with None ∅) world0)
    as (Hret & Hrun & _); [reflexivity|].
  split; [exact Hret|]. split; [exact Hrun|].
  split; vm_compute; reflexivity.
Defined.

(** Subscribing RELIANCE on NSE in mode ltpc puts one text on the wire:
    the sub message with the instrument key NSE_EQ|RELIANCE. *)
Lemma control_messages_on_the_wire_witness :
  subscribe "RELIANCE" "NSE" "ltpc" 5 (connected_adapter ∅, world0)
  = (Returns (ack "subscribed" "RELIANCE" "NSE" "ltpc"),
     (set_subscriptions
        (<[("RELIANCE", "NSE", "ltpc") := true]>
           (subscriptions (connected_adapter ∅)))
        (set_ws_client
           (Some (UpstoxWebSocket.set_ws
                    (Some (Wire UpstoxWebSocket.WS_URL [] true
                             [spec_subscribe_text (uuid4 0) "ltpc"
                                ["NSE_EQ|RELIANCE"]]))
                    (client_on true)))
           (connected_adapter ∅)),
      client_subscribing (uuid4 0) "ltpc" ["NSE_EQ|RELIANCE"]
        (subscribing "RELIANCE" "NSE" "ltpc" world0))).
Proof.
  refine (proj1 (proj2 (proj2
            (control_messages_on_the_wire (client_on true) world0
               (Wire UpstoxWebSocket.WS_URL [] true []) eq_refl)))
            (connected_adapter ∅) "RELIANCE" "NSE" "ltpc" 5%Z
            (Wire UpstoxWebSocket.WS_URL [] true
               [spec_subscribe_text (uuid4 0) "ltpc" ["NSE_EQ|RELIANCE"]])
            eq_refl eq_refl).
Defined.

(** The text of that message, written out. *)
Example subscribe_reliance_text :
  spec_subscribe_text "5f0c1a9e-3b7d-4c21-9e6a-000000000000" "ltpc"
    ["NSE_EQ|RELIANCE"]
  = "{" ++ quoted "guid" ++ ": "
        ++ quoted "5f0c1a9e-3b7d-4c21-9e6a-000000000000" ++ ", "
        ++ quoted "method" ++ ": " ++ quoted "sub" ++ ", "
        ++ quoted "data" ++ ": {" ++ quoted "mode" ++ ": " ++ quoted "ltpc"
        ++ ", " ++ quoted "instrumentKeys" ++ ": ["
        ++ quoted "NSE_EQ|RELIANCE" ++ "]}}".
Proof. vm_compute. reflexivity. Qed.

End OnSamples.


(** * Further properties *)

(** ** Exchange codes and modes *)

Section MappingMore.
Import UpstoxExchangeMapper UpstoxCapabilityRegistry.

Lemma UPSTOX_TO_OA_literal :
  UPSTOX_TO_OA = PyDict.literal (map (λ kv, (kv.2, kv.1)) OA_TO_UPSTOX_items).
Proof. reflexivity. Qed.

Lemma upper_char_idemp (c : ascii) :
  Str.upper_char (Str.upper_char c) = Str.upper_char c.
Proof. destruct c as [[] [] [] [] [] [] [] []]; reflexivity. Qed.

Lemma upper_idemp (s : string) : Str.upper (Str.upper s) = Str.upper s.
Proof.
  induction s as [|c s IH]; [done|].
  cbn [Str.upper]. by rewrite upper_char_idemp, IH.
Qed.

(** X1.  The nine broker exchange codes survive the trip to the generic
    code and back; a code whose upper-casing is not one of the nine is
    returned upper-cased by [to_oa_exchange]; the translation does not
    depend on the case of its argument. *)
Theorem broker_exchange_roundtrip_and_passthrough :
  (∀ y : string,
      y ∈ ["NSE_EQ"; "BSE_EQ"; "NSE_FO"; "BSE_FO"; "NSE_CURRENCY";
           "BSE_CURRENCY"; "MCX_FO"; "NSE_INDEX"; "BSE_INDEX"] →
      to_upstox_exchange (to_oa_exchange y) = y) ∧
  (∀ y : string,
      Str.upper y ∉ ["NSE_EQ"; "BSE_EQ"; "NSE_FO"; "BSE_FO"; "NSE_CURRENCY";
                     "BSE_CURRENCY"; "MCX_FO"; "NSE_INDEX"; "BSE_INDEX"] →
      to_oa_exchange y = Str.upper y) ∧
  (∀ x y : string,
      Str.upper x = Str.upper y → to_oa_exchange x = to_oa_exchange y).
Proof.
  split; [|split].
  - intros y Hy.
    repeat (apply elem_of_cons in Hy as [->|Hy]; [by vm_compute|]).
    by apply elem_of_nil in Hy.
  - intros y Hy. unfold to_oa_exchange, PyDict.get.
    rewrite UPSTOX_TO_OA_literal. by rewrite literal_lookup_notin.
  - intros x y Hxy. unfold to_oa_exchange. by rewrite Hxy.
Qed.

Lemma broker_exchange_roundtrip_and_passthrough_witness :
  to_upstox_exchange (to_oa_exchange "MCX_FO") = "MCX_FO" ∧
  to_oa_exchange "nyse_eq" = "NYSE_EQ" ∧
  to_oa_exchange "nse_fo" = to_oa_exchange "NSE_FO".
Proof.
  destruct broker_exchange_roundtrip_and_passthrough as (Hknown & Hunknown & Hcase).
  split; [|split].
  - apply Hknown. refine (bool_decide_unpack _ _); vm_compute; exact I.
  - apply (Hunknown "nyse_eq").
    refine (bool_decide_unpack _ _); vm_compute; exact I.
  - apply Hcase. reflexivity.
Defined.

(** X2.  The two tables are inverse to each other: a generic code is
    mapped to a broker code by [OA_TO_UPSTOX] exactly when
    [UPSTOX_TO_OA] maps that broker code back to it.  No entry is lost
    or merged by the dict comprehension. *)
Theorem exchange_tables_are_inverse (k v : string) :
  OA_TO_UPSTOX !! k = Some v ↔ UPSTOX_TO_OA !! v = Some k.
Proof.
  split.
  - intros Hk.
    destruct (decide (k ∈ OA_TO_UPSTOX_items.*1)) as [Hin|Hout].
    + cbn in Hin.
      repeat (apply elem_of_cons in Hin as [->|Hin];
              [vm_compute in Hk; injection Hk as <-; by vm_compute|]).
      by apply elem_of_nil in Hin.
    + unfold OA_TO_UPSTOX in Hk. by rewrite literal_lookup_notin in Hk.
  - intros Hv.
    destruct (decide (v ∈ (map (λ kv : string * string, (kv.2, kv.1))
                             OA_TO_UPSTOX_items).*1)) as [Hin|Hout].
    + cbn in Hin.
      repeat (apply elem_of_cons in Hin as [->|Hin];
              [vm_compute in Hv; injection Hv as <-; by vm_compute|]).
      by apply elem_of_nil in Hin.
    + rewrite UPSTOX_TO_OA_literal in Hv.
      by rewrite literal_lookup_notin in Hv.
Qed.

Lemma exchange_tables_are_inverse_witness :
  UPSTOX_TO_OA !! "NSE_CURRENCY" = Some "CDS".
Proof.
  apply (proj1 (exchange_tables_are_inverse "CDS" "NSE_CURRENCY")).
  vm_compute. reflexivity.
Defined.

Lemma to_upstox_exchange_upper (x : string) :
  to_upstox_exchange x = to_upstox_exchange (Str.upper x).
Proof. unfold to_upstox_exchange. by rewrite upper_idemp. Qed.

Lemma to_oa_exchange_upper (x : string) :
  to_oa_exchange x = to_oa_exchange (Str.upper x).
Proof. unfold to_oa_exchange. by rewrite upper_idemp. Qed.

(** X3.  On ASCII input both translations are idempotent and return an
    upper-cased string: a code that has been translated already goes
    through unchanged (so [to_upstox_exchange] accepts a broker code as
    well as a generic one). *)
Theorem exchange_translation_idempotent (x : string) :
  is_ascii x →
  to_upstox_exchange (to_upstox_exchange x) = to_upstox_exchange x ∧
  Str.upper (to_upstox_exchange x) = to_upstox_exchange x ∧
  to_oa_exchange (to_oa_exchange x) = to_oa_exchange x ∧
  Str.upper (to_oa_exchange x) = to_oa_exchange x.
Proof.
  intros _.
  rewrite (to_upstox_exchange_upper x), (to_oa_exchange_upper x).
  pose proof (upper_idemp x) as Hy.
  remember (Str.upper x) as y eqn:Ey. clear Ey x.
  assert (Hup : (to_upstox_exchange (to_upstox_exchange y) = to_upstox_exchange y ∧
                 Str.upper (to_upstox_exchange y) = to_upstox_exchange y)).
  { destruct (decide (y ∈ OA_TO_UPSTOX_items.*1)) as [Hin|Hout].
    - cbn in Hin.
      repeat (apply elem_of_cons in Hin as [->|Hin]; [by vm_compute|]).
      by apply elem_of_nil in Hin.
    - assert (to_upstox_exchange y = y) as Hfix; [|by rewrite !Hfix].
      unfold to_upstox_exchange, PyDict.get, OA_TO_UPSTOX.
      rewrite Hy. by rewrite literal_lookup_notin. }
  assert (Hdown : (to_oa_exchange (to_oa_exchange y) = to_oa_exchange y ∧
                   Str.upper (to_oa_exchange y) = to_oa_exchange y)).
  { destruct (decide (y ∈ (map (λ kv : string * string, (kv.2, kv.1))
                             OA_TO_UPSTOX_items).*1)) as [Hin|Hout].
    - cbn in Hin.
      repeat (apply elem_of_cons in Hin as [->|Hin]; [by vm_compute|]).
      by apply elem_of_nil in Hin.
    - assert (to_oa_exchange y = y) as Hfix; [|by rewrite !Hfix].
      unfold to_oa_exchange, PyDict.get.
      rewrite Hy, UPSTOX_TO_OA_literal. by rewrite literal_lookup_notin. }
  tauto.
Qed.

Lemma exchange_translation_idempotent_witness :
  to_upstox_exchange (to_upstox_exchange "nfo") = to_upstox_exchange "nfo" ∧
  Str.upper (to_upstox_exchange "nfo") = to_upstox_exchange "nfo" ∧
  to_oa_exchange (to_oa_exchange "nfo") = to_oa_exchange "nfo" ∧
  Str.upper (to_oa_exchange "nfo") = to_oa_exchange "nfo".
Proof.
  apply (exchange_translation_idempotent "nfo").
  unfold is_ascii. cbn. repeat constructor.
Defined.

(** X4.  The mode list and the ceiling table agree: the ceiling of a mode
    is positive exactly when the mode is supported. *)
Theorem ceiling_positive_iff_supported (mode : string) :
  (0 < get_max_subscriptions mode)%Z ↔ is_mode_supported mode = true.
Proof.
  unfold is_mode_supported. rewrite bool_decide_eq_true.
  destruct (decide (mode ∈ MODES)) as [Hin|Hout].
  - split; [done|]. intros _. unfold MODES in Hin.
    repeat (apply elem_of_cons in Hin as [->|Hin]; [by vm_compute|]).
    by apply elem_of_nil in Hin.
  - split; [|done]. intros Hpos. exfalso.
    unfold get_max_subscriptions, PyDict.get, MAX_SUBSCRIPTIONS in Hpos.
    rewrite literal_lookup_notin in Hpos by done. lia.
Qed.

Lemma ceiling_positive_iff_supported_witness :
  (0 < get_max_subscriptions "full_d30")%Z.
Proof.
  apply (proj2 (ceiling_positive_iff_supported "full_d30")). reflexivity.
Defined.

End MappingMore.

(** ** The streaming client: events *)

Section ClientEvents.
Context `{codec : Codec} `{transport : Transport} {Owner : Type}.
Import UpstoxWebSocket.

#[local] Abbreviation World := (Env.World Dict Owner).
#[local] Abbreviation Host := (Env.Host Dict Owner).
#[local] Abbreviation Client := (@UpstoxWebSocket.t codec transport Owner).
#[local] Abbreviation State := (@UpstoxWebSocket.St codec transport Owner).

Lemma callback_client {X} (o : option X) (f : X → Py.M Host unit)
    (c : Client) (w : World) :
  (match o with
   | Some cb => call (f cb)
   | None => λ s, (Returns tt, s)
   end (c, w)).2.1 = c.
Proof. destruct o; [|done]. by rewrite call_eq. Qed.

Lemma _on_message_client (ws : WebSocketApp) (m : message)
    (c : Client) (w : World) :
  (_on_message ws m (c, w)).2.1 = c.
Proof.
  destruct w as [[lg ow] wt dr].
  unfold _on_message. py_unfold.
  destruct m as [b|s].
  - destruct (ParseFromString b) as [m|e1];
      [|by apply (callback_client (on_error c) (λ cb, cb ws e1))].
    destruct (MessageToDict m) as [d|e2];
      [|by apply (callback_client (on_error c) (λ cb, cb ws e2))].
    destruct (on_message c) as [om|];
      [|done].
    rewrite call_eq.
    destruct (outcome_of _ _) as [[]|e3]; [done|].
    by apply (callback_client (on_error c) (λ cb, cb ws e3)).
  - destruct (on_message c) as [om|]; [|done].
    rewrite call_eq.
    destruct (outcome_of _ _) as [[]|e3]; [done|].
    by apply (callback_client (on_error c) (λ cb, cb ws e3)).
Qed.

Lemma dispatch_client (ws : WebSocketApp) (ev : event) (c : Client) (w : World) :
  (dispatch ws ev (c, w)).2.1 =
    match ev with
    | Opened => set_connected true c
    | Closed _ _ => set_connected false c
    | Received _ | Failed _ => c
    end.
Proof.
  destruct ev as [|m|e|code msg]; cbn [dispatch].
  - destruct w as [[lg ow] wt dr]. unfold _on_open. py_unfold.
    change (on_open (set_connected true c)) with (on_open c).
    destruct (on_open c) as [cb|]; [|done]. by rewrite call_eq.
  - apply _on_message_client.
  - destruct w as [[lg ow] wt dr]. unfold _on_error. py_unfold.
    destruct (on_error c) as [cb|]; [|done]. by rewrite call_eq.
  - destruct w as [[lg ow] wt dr]. unfold _on_close. py_unfold.
    change (on_close (set_connected false c)) with (on_close c).
    destruct (on_close c) as [cb|]; [|done]. by rewrite call_eq.
Qed.

Lemma run_forever_client (ws : WebSocketApp) (events : list event)
    (c : Client) (w : World) :
  same_wiring c (run_forever ws events (c, w)).2.1 ∧
  _thread (run_forever ws events (c, w)).2.1 = _thread c.
Proof.
  revert c w. induction events as [|ev events IH]; intros c w.
  - by repeat split.
  - cbn [run_forever]. unfold Py.bind.
    pose proof (dispatch_client ws ev c w) as Hc.
    destruct (dispatch ws ev (c, w)) as [[[]|e] [c1 w1]]; cbn [fst snd] in *.
    + destruct (IH c1 w1) as [Hw Ht]. rewrite Ht. unfold same_wiring in *.
      destruct Hw as (-> & -> & -> & -> & -> & -> & ->).
      subst c1. by destruct ev.
    + subst c1. by destruct ev.
Qed.


(** X6.  A text frame never reaches the decoder: it is logged and handed
    to [on_message] as it came, or dropped after logging when no
    [on_message] callback is set. *)
Theorem text_frame_is_forwarded_verbatim (ws : WebSocketApp) (s : string)
    (c : Client) (w : World) :
  (on_message c = None →
   _on_message ws (Text s) (c, w) = (Returns tt, (c, text_received s w))) ∧
  (∀ om,
      on_message c = Some om →
      outcome_of (om ws (Verbatim s)) (text_received s w) = Returns tt →
      _on_message ws (Text s) (c, w)
      = (Returns tt, (c, after (om ws (Verbatim s)) (text_received s w)))).
Proof.
  destruct w as [[lg ow] wt dr]. split.
  - intros Hom. unfold _on_message. py_unfold. by rewrite Hom.
  - intros om Hom Hret. unfold _on_message. py_unfold.
    rewrite Hom, call_eq.
    match goal with |- context [outcome_of _ ?W] =>
      change W with (text_received s (Env.World_ (Env.Host_ lg ow) wt dr))
    end.
    by rewrite Hret.
Qed.

(** X7.  An exception raised by the [on_message] callback does not leave
    the handler either: it is caught by the same handler as a decoding
    failure, logged as a failure to decode, and handed to [on_error],
    for a binary frame that decoded well as for a text frame. *)
Theorem consumer_exception_is_reported (ws : WebSocketApp) (c : Client)
    (w : World) (om : WebSocketApp → payload → Py.M Host unit) (e : exn) :
  on_message c = Some om →
  (∀ b d,
      decode b = Returns d →
      outcome_of (om ws (Decoded d)) (binary_received b w) = Raises e →
      _on_message ws (Bytes b) (c, w) =
        match on_error c with
        | Some cb =>
            (outcome_of (cb ws e)
               (failure_logged e
                  (after (om ws (Decoded d)) (binary_received b w))),
             (c,
              after (cb ws e)
                (failure_logged e
                   (after (om ws (Decoded d)) (binary_received b w)))))
        | None =>
            (Returns tt,
             (c,
              failure_logged e
                (after (om ws (Decoded d)) (binary_received b w))))
        end) ∧
  (∀ s,
      outcome_of (om ws (Verbatim s)) (text_received s w) = Raises e →
      _on_message ws (Text s) (c, w) =
        match on_error c with
        | Some cb =>
            (outcome_of (cb ws e)
               (failure_logged e
                  (after (om ws (Verbatim s)) (text_received s w))),
             (c,
              after (cb ws e)
                (failure_logged e
                   (after (om ws (Verbatim s)) (text_received s w)))))
        | None =>
            (Returns tt,
             (c,
              failure_logged e
                (after (om ws (Verbatim s)) (text_received s w))))
        end).
Proof.
  intros Hom. destruct w as [[lg ow] wt dr]. split.
  - intros b d Hdec Hraise. unfold decode in Hdec.
    rewrite <- report_eq.
    unfold _on_message. py_unfold.
    destruct (ParseFromString b) as [m|e1]; [|done].
    rewrite Hdec, Hom, call_eq.
    match goal with |- context [outcome_of _ ?W] =>
      change W with (binary_received b (Env.World_ (Env.Host_ lg ow) wt dr))
    end.
    rewrite Hraise. reflexivity.
  - intros s Hraise.
    rewrite <- report_eq.
    unfold _on_message. py_unfold.
    rewrite Hom, call_eq.
    match goal with |- context [outcome_of _ ?W] =>
      change W with (text_received s (Env.World_ (Env.Host_ lg ow) wt dr))
    end.
    rewrite Hraise. reflexivity.
Qed.

Lemma dispatch_returns (ws : WebSocketApp) (ev : event) (c : Client) (w : World) :
  lifecycle_never_raises c →
  ∃ w', dispatch ws ev (c, w)
        = (Returns tt,
           (match ev with
            | Opened => set_connected true c
            | Closed _ _ => set_connected false c
            | Received _ | Failed _ => c
            end, w')).
Proof.
  intros (Herr & Hopen & Hclose).
  destruct ev as [|m|e|code msg]; cbn [dispatch].
  - destruct w as [[lg ow] wt dr]. unfold _on_open. py_unfold.
    change (on_open (set_connected true c)) with (on_open c).
    destruct (on_open c) as [cb|]; [|eauto].
    rewrite call_eq. unfold outcome_of. rewrite Hopen. eauto.
  - by apply _on_message_returns.
  - destruct w as [[lg ow] wt dr]. unfold _on_error. py_unfold.
    unfold on_error_never_raises in Herr.
    destruct (on_error c) as [cb|]; [|eauto].
    rewrite call_eq. unfold outcome_of. rewrite Herr. eauto.
  - destruct w as [[lg ow] wt dr]. unfold _on_close. py_unfold.
    change (on_close (set_connected false c)) with (on_close c).
    destruct (on_close c) as [cb|]; [|eauto].
    rewrite call_eq. unfold outcome_of. rewrite Hclose. eauto.
Qed.

(** X8.  With lifecycle callbacks that return, the receive loop gets
    through any sequence of events, and the connected flag it leaves is
    the one of the last open or close in the sequence (the flag as it was
    if there is none): a transport error alone never clears it. *)
Theorem connected_follows_last_open_or_close (ws : WebSocketApp)
    (events : list event) (c : Client) (w : World) :
  lifecycle_never_raises c →
  ∃ w', run_forever ws events (c, w)
        = (Returns tt,
           (set_connected (flag_after_all events (connected c)) c, w')).
Proof.
  revert c w. induction events as [|ev events IH]; intros c w Hlife.
  - exists w. by destruct c.
  - destruct (dispatch_returns ws ev c w Hlife) as [w1 Hev].
    cbn [run_forever]. unfold Py.bind. rewrite Hev.
    set (c1 := match ev with
               | Opened => set_connected true c
               | Closed _ _ => set_connected false c
               | _ => c
               end).
    assert (Hlife1 : lifecycle_never_raises c1) by (by destruct ev).
    destruct (IH c1 w1 Hlife1) as [w' ->]. exists w'.
    do 2 f_equal. subst c1. by destruct ev, c.
Qed.

End ClientEvents.

(** ** The streaming client: connect, disconnect and sending *)

Section ClientLifecycle.
Context `{codec : Codec} `{transport : Transport}
        {control : @TransportControl transport} {Owner : Type}.
Import UpstoxWebSocket.

#[local] Abbreviation World := (Env.World Dict Owner).
#[local] Abbreviation Host := (Env.Host Dict Owner).
#[local] Abbreviation Client := (@UpstoxWebSocket.t codec transport Owner).
#[local] Abbreviation State := (@UpstoxWebSocket.St codec transport Owner).

Lemma same_wiring_trans (c1 c2 c3 : Client) :
  same_wiring c1 c2 → same_wiring c2 c3 → same_wiring c1 c3.
Proof.
  unfold same_wiring.
  intros (-> & -> & -> & -> & -> & -> & ->) (-> & -> & -> & -> & -> & -> & ->).
  done.
Qed.

Lemma timed_out_client (st : State) : (timed_out st).1 = st.1.
Proof. reflexivity. Qed.

Lemma flag_at_eq sched (i : nat) (st : State) :
  flag_at sched i st = connected (at_poll sched i st).1.
Proof. reflexivity. Qed.

Lemma worker_client (events : list event) (c : Client) (w : World) :
  same_wiring c (worker events (c, w)).2.1 ∧
  (is_Some (_thread c) → is_Some (_thread (worker events (c, w)).2.1)).
Proof.
  unfold worker, Py.bind, self. cbn [fst snd].
  destruct (_thread c) as [[]|] eqn:Ht; [|by rewrite ?Ht..].
  destruct (ws c) as [app|] eqn:Hws; [|by rewrite ?Ht].
  unfold Py.try_except.
  destruct (run_forever_client app events c w) as [Hw Hth].
  destruct (run_forever app events (c, w)) as [[[]|e] [c1 w1]];
    cbn [fst snd] in *.
  - split; [done|]. by rewrite Hth, Ht.
  - split; [done|]. intros _. by eexists.
Qed.

Lemma at_poll_client sched (i : nat) (c : Client) (w : World) :
  same_wiring (set_ws (Some (opened_transport (access_token c))) c)
    (at_poll sched i (c, w)).1 ∧
  is_Some (_thread (at_poll sched i (c, w)).1).
Proof.
  induction i as [|i [IHw IHt]].
  - cbn [at_poll]. unfold connect_opening.
    cbv [Py.bind self logger update Py.modify fst snd].
    match goal with |- context [worker (sched 0) (?c1, ?w1)] =>
      destruct (worker_client (sched 0) c1 w1) as [Hw Ht]
    end.
    destruct (worker (sched 0) _) as [r [c1 w1]]. cbn [fst snd] in *.
    split; [done|]. apply Ht. by eexists.
  - cbn [at_poll]. destruct (at_poll sched i (c, w)) as [c1 w1].
    cbn [fst snd] in *.
    unfold _stop_event_wait, Py.bind, Py.modify. cbn [fst snd].
    destruct (worker_client (sched (S i)) c1 (Env.waited 100 w1)) as [Hw Ht].
    destruct (worker (sched (S i)) _) as [[[]|e] [c2 w2]]; cbn [fst snd] in *.
    + split; [by eapply same_wiring_trans|auto].
    + split; [by eapply same_wiring_trans|auto].
Qed.

(** X9.  [connect] always opens a new transport: whatever handle the
    client held before, it ends up holding the one built from the feed
    URL and the two headers, the first of which carries the token as a
    bearer credential.  Token, callbacks and stop event are as before,
    and a thread has been started, whether [connect] returns [True] or
    [False]. *)
Theorem connect_installs_fresh_transport (sched : nat → list event)
    (c : Client) (w : World) :
  ws (connect sched (c, w)).2.1
  = Some (WebSocketApp_new WS_URL
            ["Authorization: Bearer " ++ access_token c; "Accept: */*"]) ∧
  same_wiring (set_ws (ws (connect sched (c, w)).2.1) c)
    (connect sched (c, w)).2.1 ∧
  is_Some (_thread (connect sched (c, w)).2.1).
Proof.
  rewrite connect_eq.
  assert (Hgen : ∀ i,
    ws (at_poll sched i (c, w)).1 = Some (opened_transport (access_token c)) ∧
    same_wiring (set_ws (ws (at_poll sched i (c, w)).1) c)
      (at_poll sched i (c, w)).1 ∧
    is_Some (_thread (at_poll sched i (c, w)).1)).
  { intros i. destruct (at_poll_client sched i c w) as [Hw Ht].
    pose proof Hw as (_ & Hws & _). cbn [ws set_ws] in Hws.
    split; [done|]. rewrite Hws. by split. }
  destruct (first_from _ 0 30) as [i|].
  - apply Hgen.
  - cbn [snd]. rewrite timed_out_client. apply Hgen.
Qed.

(** X10.  A [connect] that timed out tears nothing down: if none of its
    30 looks found the flag set it returns [False], and the flag it
    leaves is whatever the worker made of it during the last wait.  A
    transport that opens just then leaves the client connected although
    [connect] said [False]. *)
Theorem connect_timeout_keeps_late_open (sched : nat → list event)
    (st : State) :
  (∀ i, (i < 30)%nat → flag_at sched i st = false) →
  (connect sched st).1 = Returns false ∧
  connected (connect sched st).2.1 = flag_at sched 30 st.
Proof.
  intros Hnone. rewrite connect_eq.
  assert (first_from (λ i, flag_at sched i st) 0 30 = None) as ->.
  { apply first_from_None. intros i Hi. apply Hnone. lia. }
  cbn [fst snd]. rewrite timed_out_client, flag_at_eq. split; reflexivity.
Qed.

(** X11.  [disconnect] sets the stop event first, then closes the
    transport if there is one, then clears the connected flag.  Without a
    transport (a client never connected) it returns all the same.  If
    closing raises, the exception leaves [disconnect] with the stop event
    set and the connected flag as it was. *)
Theorem disconnect_outcomes (c : Client) (w : World) :
  (ws c = None →
   disconnect (c, w)
   = (Returns tt,
      (set_connected false (set_stop_event true c), disconnecting w))) ∧
  (∀ app app',
      ws c = Some app →
      WebSocketApp_close app = (Returns tt, app') →
      disconnect (c, w)
      = (Returns tt,
         (set_connected false (set_ws (Some app') (set_stop_event true c)),
          disconnecting w))) ∧
  (∀ app app' e,
      ws c = Some app →
      WebSocketApp_close app = (Raises e, app') →
      disconnect (c, w)
      = (Raises e,
         (set_ws (Some app') (set_stop_event true c), disconnecting w)) ∧
      connected (set_ws (Some app') (set_stop_event true c)) = connected c).
Proof.
  destruct w as [[lg ow] wt dr].
  split; [|split].
  - intros Hws. unfold disconnect. py_unfold.
    change (ws (set_stop_event true c)) with (ws c). by rewrite Hws.
  - intros app app' Hws Hclose. unfold disconnect, ws_close. py_unfold.
    change (ws (set_stop_event true c)) with (ws c).
    by rewrite Hws, Hclose.
  - intros app app' e Hws Hclose. split; [|done].
    unfold disconnect, ws_close. py_unfold.
    change (ws (set_stop_event true c)) with (ws c).
    by rewrite Hws, Hclose.
Qed.

(** X12.  [send_binary] is guarded: without a transport, or while the
    connected flag is unset, it sends nothing, changes nothing and
    returns; otherwise it hands the bytes to the transport once, and its
    outcome is the transport's. *)
Theorem send_binary_is_guarded (data : list byte) (c : Client) (w : World) :
  (ws c = None ∨ connected c = false →
   send_binary data (c, w) = (Returns tt, (c, w))) ∧
  (∀ app r app',
      ws c = Some app →
      connected c = true →
      WebSocketApp_send_binary data app = (r, app') →
      send_binary data (c, w) = (r, (set_ws (Some app') c, w))).
Proof.
  split.
  - intros Hoff. unfold send_binary, Py.bind, self. cbn [fst snd].
    destruct (ws c) as [app|]; [|done].
    destruct Hoff as [|Hflag]; [done|]. by rewrite Hflag.
  - intros app r app' Hws Hflag Hsend.
    unfold send_binary, ws_send_binary, Py.bind, self. cbn [fst snd].
    by rewrite Hws, Hflag, Hsend.
Qed.

(** X13.  [subscribe] and [unsubscribe] are not guarded.  Without a
    transport they raise an [AttributeError] after logging the request,
    and nothing is queued.  They do not look at the connected flag: with
    the flag set or unset they do the same. *)
Theorem control_messages_are_not_guarded (guid mode : string)
    (keys : list string) (c : Client) (w : World) :
  (ws c = None →
   subscribe guid mode keys (c, w)
   = (Raises (Py.AttributeError "'NoneType' object has no attribute 'send'"),
      (c, client_subscribing guid mode keys w)) ∧
   unsubscribe guid keys (c, w)
   = (Raises (Py.AttributeError "'NoneType' object has no attribute 'send'"),
      (c, client_unsubscribing guid keys w))) ∧
  (∀ flag,
      subscribe guid mode keys (set_connected flag c, w)
      = ((subscribe guid mode keys (c, w)).1,
         (set_connected flag (subscribe guid mode keys (c, w)).2.1,
          (subscribe guid mode keys (c, w)).2.2)) ∧
      unsubscribe guid keys (set_connected flag c, w)
      = ((unsubscribe guid keys (c, w)).1,
         (set_connected flag (unsubscribe guid keys (c, w)).2.1,
          (unsubscribe guid keys (c, w)).2.2))).
Proof.
  split.
  - intros Hws. split.
    + unfold subscribe, ws_send, Py.bind, logger, Py.modify, self.
      cbn [fst snd]. by rewrite Hws.
    + unfold unsubscribe, ws_send, Py.bind, logger, Py.modify, self.
      cbn [fst snd]. by rewrite Hws.
  - intros flag. split.
    + unfold subscribe, ws_send, Py.bind, logger, Py.modify, self.
      cbn [fst snd]. change (ws (set_connected flag c)) with (ws c).
      destruct (ws c) as [app|]; [|done].
      by destruct (WebSocketApp_send _ app) as [[[]|e] app'].
    + unfold unsubscribe, ws_send, Py.bind, logger, Py.modify, self.
      cbn [fst snd]. change (ws (set_connected flag c)) with (ws c).
      destruct (ws c) as [app|]; [|done].
      by destruct (WebSocketApp_send _ app) as [[[]|e] app'].
Qed.

End ClientLifecycle.

(** ** The adapter: bookkeeping and lifecycle *)

Section AdapterMore.
Context `{codec : Codec} `{transport : Transport}
        {control : @TransportControl transport} `{uuid : Uuid}
        `{auth_db : AuthDb} {Owner : Type}.
Import UpstoxWebSocketAdapter.

#[local] Abbreviation World := (Env.World Dict Owner).
#[local] Abbreviation Client := (@UpstoxWebSocket.t codec transport Owner).
#[local] Abbreviation Adapter := (@UpstoxWebSocketAdapter.t codec transport Owner).

(** X14.  Subscription keys are independent: [subscribe] and
    [unsubscribe] of one key, whether they return or raise, leave the
    presence of every other key as it was. *)
Theorem other_keys_are_untouched (symbol exchange mode : string)
    (depth_level : Z) (a : Adapter) (w : World) (k : key) :
  k ≠ (symbol, exchange, mode) →
  subscriptions (subscribe symbol exchange mode depth_level (a, w)).2.1 !! k
  = subscriptions a !! k ∧
  subscriptions (unsubscribe symbol exchange mode (a, w)).2.1 !! k
  = subscriptions a !! k.
Proof.
  intros Hk. split.
  - pose proof (subscribe_outcome symbol exchange mode depth_level a w) as Hout.
    destruct (subscribe symbol exchange mode depth_level (a, w)).1.
    + destruct Hout as [_ ->]. by rewrite lookup_insert_ne.
    + by rewrite Hout.
  - pose proof (unsubscribe_outcome symbol exchange mode a w) as Hout.
    destruct (unsubscribe symbol exchange mode (a, w)).1.
    + destruct Hout as [_ ->]. by rewrite lookup_delete_ne.
    + by rewrite Hout.
Qed.

(** X15.  The exchange is translated for the wire but not for the
    bookkeeping.  Two exchanges that differ only in case give the same
    instrument key, yet they are two Subscription Keys: after a
    [subscribe] with one spelling that returned, an [unsubscribe] with
    the other leaves the first key in the subscription set, whether it
    returns or raises. *)
Theorem exchange_case_is_kept_in_keys (symbol e1 e2 mode : string)
    (depth_level : Z) (a : Adapter) (w : World) :
  Str.upper e1 = Str.upper e2 →
  e1 ≠ e2 →
  instrument_key symbol e1 = instrument_key symbol e2 ∧
  (Py.returned (subscribe symbol e1 mode depth_level (a, w)).1 = true →
   subscriptions
     (unsubscribe symbol e2 mode
        (subscribe symbol e1 mode depth_level (a, w)).2).2.1
     !! (symbol, e1, mode) = Some true).
Proof.
  intros Hup Hne. split.
  - unfold instrument_key, UpstoxExchangeMapper.to_upstox_exchange.
    by rewrite Hup.
  - intros Hret.
    pose proof (subscribe_outcome symbol e1 mode depth_level a w) as H1.
    destruct (subscribe symbol e1 mode depth_level (a, w)) as [r1 [a1 w1]].
    cbn [fst snd] in *. destruct r1 as [r1|]; [|done].
    destruct H1 as [_ H1].
    assert (Hk : (symbol, e1, mode) ≠ (symbol, e2, mode)) by congruence.
    pose proof (unsubscribe_outcome symbol e2 mode a1 w1) as H2.
    destruct (unsubscribe symbol e2 mode (a1, w1)).1.
    + destruct H2 as [_ ->].
      rewrite lookup_delete_ne by done. rewrite H1. apply lookup_insert_eq.
    + rewrite H2, H1. apply lookup_insert_eq.
Qed.

(** X16.  Before [connect] there is no client: [subscribe] and
    [unsubscribe] draw a guid, log the request and raise an
    [AttributeError]; nothing is sent or queued and the adapter is as it
    was, its subscription set included. *)
Theorem requests_before_connect_raise (symbol exchange mode : string)
    (depth_level : Z) (a : Adapter) (w : World) :
  ws_client a = None →
  subscribe symbol exchange mode depth_level (a, w)
  = (Raises (Py.AttributeError
               "'NoneType' object has no attribute 'subscribe'"),
     (a, subscribing symbol exchange mode w)) ∧
  unsubscribe symbol exchange mode (a, w)
  = (Raises (Py.AttributeError
               "'NoneType' object has no attribute 'unsubscribe'"),
     (a, unsubscribing symbol exchange mode w)).
Proof.
  intros Hc. split.
  - by apply subscribe_None.
  - by apply unsubscribe_None.
Qed.

Lemma connect_subscriptions sched (a : Adapter) (w : World) :
  subscriptions (connect sched (a, w)).2.1 = subscriptions a.
Proof.
  destruct (Py.truthy (access_token a)) eqn:Htruthy.
  - destruct (access_token a) as [token|] eqn:Htoken; [|done].
    destruct (connect_returns sched (fresh_client token, w))
      as (v & st1 & Hcall).
    by rewrite (connect_with_token sched a w token v st1 Htoken Htruthy Hcall).
  - unfold connect, Py.bind, self. cbn [fst snd].
    by destruct (access_token a) as [[|ch token]|].
Qed.

(** X17.  [connect] neither clears nor replays the subscription set.  The
    set is as before, and with a token the adapter holds a new client
    whose transport was opened with that token as bearer credential:
    whatever was subscribed on an earlier connection is still listed, and
    none of it has been requested on the new one. *)
Theorem reconnect_keeps_subscriptions_without_replay
    (sched : nat → list UpstoxWebSocket.event) (a : Adapter) (w : World) :
  subscriptions (connect sched (a, w)).2.1 = subscriptions a ∧
  (∀ token,
      access_token a = Some token →
      Py.truthy (Some token) = true →
      ∃ c',
        ws_client (connect sched (a, w)).2.1 = Some c' ∧
        UpstoxWebSocket.access_token c' = token ∧
        UpstoxWebSocket.ws c'
        = Some (WebSocketApp_new UpstoxWebSocket.WS_URL
                  ["Authorization: Bearer " ++ token; "Accept: */*"])).
Proof.
  split; [apply connect_subscriptions|].
  intros token Htoken Htruthy.
  destruct (connect_returns sched (fresh_client token, w))
    as (v & [c1 w1] & Hcall).
  rewrite (connect_with_token sched a w token v (c1, w1) Htoken Htruthy Hcall).
  exists c1. split; [done|].
  assert (Hc1 : c1 = (UpstoxWebSocket.connect sched (fresh_client token, w)).2.1)
    by (by rewrite Hcall).
  rewrite Hc1, connect_eq.
  assert (Hgen : ∀ i,
    UpstoxWebSocket.access_token (at_poll sched i (fresh_client token, w)).1
    = token ∧
    UpstoxWebSocket.ws (at_poll sched i (fresh_client token, w)).1
    = Some (opened_transport token)).
  { intros i.
    destruct (at_poll_client sched i (fresh_client token) w)
      as [(Htok & Hws & _) _].
    by split. }
  destruct (first_from _ 0 30) as [i|].
  - apply Hgen.
  - cbn [snd]. rewrite timed_out_client. apply Hgen.
Qed.

(** X18.  The adapter's [disconnect] is guarded where [subscribe] is not:
    without a client it just clears [running].  With a client it runs the
    client's [disconnect] first; when that returns, [running] is cleared
    and the client is kept; when that raises, the exception leaves
    [disconnect] and [running] is as it was. *)
Theorem adapter_disconnect_outcomes (a : Adapter) (w : World) :
  (ws_client a = None →
   disconnect (a, w) = (Returns tt, (set_running false a, w))) ∧
  (∀ c st1,
      ws_client a = Some c →
      UpstoxWebSocket.disconnect (c, w) = (Returns tt, st1) →
      disconnect (a, w)
      = (Returns tt,
         (set_running false (set_ws_client (Some st1.1) a), st1.2))) ∧
  (∀ c e st1,
      ws_client a = Some c →
      UpstoxWebSocket.disconnect (c, w) = (Raises e, st1) →
      disconnect (a, w)
      = (Raises e, (set_ws_client (Some st1.1) a, st1.2)) ∧
      running (set_ws_client (Some st1.1) a) = running a).
Proof.
  split; [|split].
  - intros Hc. unfold disconnect, Py.bind, self, update, Py.modify.
    cbn [fst snd]. by rewrite Hc.
  - intros c st1 Hc Hcall. unfold disconnect. unfold Py.bind at 1, self at 1.
    cbn [fst snd]. rewrite Hc. unfold Py.bind.
    by rewrite (ws_client_call_eq _ _ _ _ c (Returns tt) st1 Hc Hcall).
  - intros c e st1 Hc Hcall. split; [|done].
    unfold disconnect. unfold Py.bind at 1, self at 1.
    cbn [fst snd]. rewrite Hc. unfold Py.bind.
    by rewrite (ws_client_call_eq _ _ _ _ c (Raises e) st1 Hc Hcall).
Qed.

Lemma initialize_found (broker u : string) (token : option string)
    (a : Adapter) (w : World) :
  Py.truthy (Some u) = true →
  get_auth_token u = token →
  Py.truthy token = true →
  initialize broker (Some u) (a, w)
  = (Returns tt, (set_access_token token (set_identity broker (Some u) a), w)).
Proof.
  intros Hu Hget Htok. destruct u as [|ch u]; [done|].
  unfold initialize, Py.bind, update, Py.modify. cbn [fst snd].
  by rewrite Hget, Htok.
Qed.

Lemma initialize_not_found (broker u : string) (a : Adapter) (w : World) :
  Py.truthy (Some u) = true →
  Py.truthy (get_auth_token u) = false →
  initialize broker (Some u) (a, w)
  = (Returns tt,
     (set_identity broker (Some u) a,
      Env.write
        (record Env.WARNING
           "No Upstox access token found for user_id '{user_id}' in DB."
           [Env.AStr u])
        w)).
Proof.
  intros Hu Hget. destruct u as [|ch u]; [done|].
  unfold initialize, Py.bind, update, logger, Py.modify. cbn [fst snd].
  by rewrite Hget.
Qed.

(** X19.  [initialize] never clears a token.  When the adapter is
    initialized for a user with a stored token and then for a user
    without one, it ends up with the second user's id and the first
    user's token, and [connect] goes ahead with that token. *)
Theorem stale_token_survives_reinitialize (broker uA uB tok : string)
    (a : Adapter) (w : World) :
  Py.truthy (Some uA) = true →
  Py.truthy (Some uB) = true →
  get_auth_token uA = Some tok →
  Py.truthy (Some tok) = true →
  Py.truthy (get_auth_token uB) = false →
  user_id
    (initialize broker (Some uB) (initialize broker (Some uA) (a, w)).2).2.1
  = Some uB ∧
  access_token
    (initialize broker (Some uB) (initialize broker (Some uA) (a, w)).2).2.1
  = Some tok ∧
  ∀ sched,
    (connect sched
       (initialize broker (Some uB) (initialize broker (Some uA) (a, w)).2).2).1
    = Returns tt.
Proof.
  intros HuA HuB HgetA Htok HgetB.
  rewrite (initialize_found broker uA (Some tok) a w HuA HgetA Htok).
  cbn [snd]. rewrite (initialize_not_found broker uB _ _ HuB HgetB).
  cbn [fst snd]. split; [done|]. split; [done|].
  intros sched.
  match goal with |- context [connect sched (?a2, ?w2)] =>
    destruct (connect_returns sched (fresh_client tok, w2))
      as (v & st1 & Hcall);
    by rewrite (connect_with_token sched a2 w2 tok v st1 eq_refl Htok Hcall)
  end.
Qed.

Lemma client_request_draws (c : Client) (w : World) :
  (∀ guid mode keys,
      Env.draws (UpstoxWebSocket.subscribe guid mode keys (c, w)).2.2
      = Env.draws w) ∧
  (∀ guid keys,
      Env.draws (UpstoxWebSocket.unsubscribe guid keys (c, w)).2.2
      = Env.draws w).
Proof.
  split; intros;
    unfold UpstoxWebSocket.subscribe, UpstoxWebSocket.unsubscribe,
      UpstoxWebSocket.ws_send, Py.bind, UpstoxWebSocket.logger, Py.modify,
      UpstoxWebSocket.self; cbn [fst snd];
    (destruct (UpstoxWebSocket.ws c) as [app|]; [|done]);
    by destruct (WebSocketApp_send _ app) as [[[]|e] app'].
Qed.

(** X20.  Every [subscribe] and every [unsubscribe] draws exactly one
    guid, whether it returns or raises: requests made one after the other
    never share a draw. *)
Theorem each_request_draws_one_guid (symbol exchange mode : string)
    (depth_level : Z) (a : Adapter) (w : World) :
  Env.draws (subscribe symbol exchange mode depth_level (a, w)).2.2
  = S (Env.draws w) ∧
  Env.draws (unsubscribe symbol exchange mode (a, w)).2.2
  = S (Env.draws w).
Proof.
  split.
  - destruct (ws_client a) as [c|] eqn:Hc;
      [|by rewrite subscribe_None].
    pose proof (proj1 (client_request_draws c
                         (subscribing symbol exchange mode w))
                  (uuid4 (Env.draws w)) mode
                  [instrument_key symbol exchange]) as Hd.
    destruct (UpstoxWebSocket.subscribe _ _ _ _) as [r st1] eqn:Hcall.
    rewrite (subscribe_eq _ _ _ depth_level _ _ _ _ _ Hc Hcall).
    cbn [fst snd] in Hd. by destruct r.
  - destruct (ws_client a) as [c|] eqn:Hc;
      [|by rewrite unsubscribe_None].
    pose proof (proj2 (client_request_draws c
                         (unsubscribing symbol exchange mode w))
                  (uuid4 (Env.draws w))
                  [instrument_key symbol exchange]) as Hd.
    destruct (UpstoxWebSocket.unsubscribe _ _ _) as [r st1] eqn:Hcall.
    rewrite (unsubscribe_eq _ _ _ _ _ _ _ _ Hc Hcall).
    cbn [fst snd] in Hd. by destruct r.
Qed.

(** X21.  Only [subscribe] and [unsubscribe] change the subscription set:
    [initialize] and [disconnect] leave it as it is, whatever the token
    lookup gives and whether or not closing the transport raises. *)
Theorem initialize_and_disconnect_keep_subscriptions
    (broker : string) (user : option string) (a : Adapter) (w : World) :
  subscriptions (initialize broker user (a, w)).2.1 = subscriptions a ∧
  subscriptions (disconnect (a, w)).2.1 = subscriptions a.
Proof.
  split.
  - unfold initialize, Py.bind, update, logger, Py.modify. cbn [fst snd].
    destruct user as [[|ch u]|]; cbn [Py.truthy fst snd]; [done| |done].
    by destruct (Py.truthy (get_auth_token (String ch u))).
  - destruct (ws_client a) as [c|] eqn:Hc.
    + destruct (UpstoxWebSocket.disconnect (c, w)) as [r st1] eqn:Hcall.
      unfold disconnect. unfold Py.bind at 1, self at 1.
      cbn [fst snd]. rewrite Hc. unfold Py.bind.
      rewrite (ws_client_call_eq _ _ _ _ c r st1 Hc Hcall).
      by destruct r.
    + unfold disconnect, Py.bind, self, update, Py.modify.
      cbn [fst snd]. by rewrite Hc.
Qed.

End AdapterMore.

(** ** The further properties on the sample collaborators *)

Section MoreOnSamples.
Import Sample.

(** A text frame reaches the adapter's callback as it came. *)
Lemma text_frame_is_forwarded_verbatim_witness :
  UpstoxWebSocket._on_message wire0 (UpstoxWebSocket.Text "pong")
    (client0, world0)
  = (Returns tt,
     (client0,
      after (UpstoxWebSocketAdapter._on_message wire0
               (UpstoxWebSocket.Verbatim "pong"))
            (text_received "pong" world0))).
Proof.
  apply (proj2 (text_frame_is_forwarded_verbatim wire0 "pong" client0 world0)
           UpstoxWebSocketAdapter._on_message).
  - reflexivity.
  - reflexivity.
Defined.

(** The consumer raises on a well-formed frame: the adapter's error
    callback gets the consumer's exception. *)
Lemma consumer_exception_is_reported_witness :
  UpstoxWebSocket._on_message wire0 (UpstoxWebSocket.Bytes frame_b)
    (client_with_failing_consumer, world0)
  = (outcome_of (UpstoxWebSocketAdapter._on_error wire0 key_error)
       (failure_logged key_error
          (after (failing_consumer wire0 (decoded [x50]))
             (binary_received frame_b world0))),
     (client_with_failing_consumer,
      after (UpstoxWebSocketAdapter._on_error wire0 key_error)
        (failure_logged key_error
           (after (failing_consumer wire0 (decoded [x50]))
              (binary_received frame_b world0))))).
Proof.
  apply (proj1 (consumer_exception_is_reported wire0
                  client_with_failing_consumer world0 failing_consumer
                  key_error eq_refl) frame_b ([x50] : @Dict Sample.codec)).
  - reflexivity.
  - reflexivity.
Defined.

(** Open, a frame, an error, close, open again: connected. *)
Lemma connected_follows_last_open_or_close_witness :
  ∃ w',
    UpstoxWebSocket.run_forever wire0
      [UpstoxWebSocket.Opened;
       UpstoxWebSocket.Received (UpstoxWebSocket.Bytes frame_bad);
       UpstoxWebSocket.Failed closed_error;
       UpstoxWebSocket.Closed (Some 1006%Z) None;
       UpstoxWebSocket.Opened]
      (client0, world0)
    = (Returns tt,
       (UpstoxWebSocket.set_connected
          (flag_after_all
             [UpstoxWebSocket.Opened;
              UpstoxWebSocket.Received (UpstoxWebSocket.Bytes frame_bad);
              UpstoxWebSocket.Failed closed_error;
              UpstoxWebSocket.Closed (Some 1006%Z) None;
              UpstoxWebSocket.Opened]
             (UpstoxWebSocket.connected client0))
          client0,
        w')).
Proof.
  apply connected_follows_last_open_or_close.
  repeat split; intros; reflexivity.
Defined.

(** The transport opens during the thirtieth wait: [connect] has given up
    and says [False], and the client is connected. *)
Lemma connect_timeout_keeps_late_open_witness :
  (UpstoxWebSocket.connect (opens_at 30) (client0, world0)).1 = Returns false ∧
  UpstoxWebSocket.connected
    (UpstoxWebSocket.connect (opens_at 30) (client0, world0)).2.1
  = flag_at (opens_at 30) 30 (client0, world0).
Proof.
  apply (connect_timeout_keeps_late_open (opens_at 30) (client0, world0)).
  intros i Hi.
  do 30 (destruct i as [|i]; [vm_compute; reflexivity|]). lia.
Defined.

Example late_open_is_connected :
  flag_at (opens_at 30) 30 (client0, world0) = true.
Proof. vm_compute. reflexivity. Qed.

Lemma disconnect_outcomes_witness :
  UpstoxWebSocket.disconnect (client0, world0)
  = (Returns tt,
     (UpstoxWebSocket.set_connected false
        (UpstoxWebSocket.set_stop_event true client0),
      disconnecting world0)) ∧
  UpstoxWebSocket.disconnect (client_on true, world0)
  = (Returns tt,
     (UpstoxWebSocket.set_connected false
        (UpstoxWebSocket.set_ws
           (Some (Wire UpstoxWebSocket.WS_URL [] false [] : WebSocketApp))
           (UpstoxWebSocket.set_stop_event true (client_on true))),
      disconnecting world0)).
Proof.
  split.
  - apply (proj1 (disconnect_outcomes client0 world0)). reflexivity.
  - apply (proj1 (proj2 (disconnect_outcomes (client_on true) world0))
             (Wire UpstoxWebSocket.WS_URL [] true [])).
    + reflexivity.
    + reflexivity.
Defined.

(** The transport is there but the flag is unset: nothing is sent. *)
Lemma send_binary_is_guarded_witness :
  UpstoxWebSocket.send_binary [x01; x02] (client_on true, world0)
  = (Returns tt, (client_on true, world0)) ∧
  UpstoxWebSocket.send_binary [x4f; x4b]
    (UpstoxWebSocket.set_connected true (client_on true), world0)
  = (Returns tt,
     (UpstoxWebSocket.set_ws
        (Some (Wire UpstoxWebSocket.WS_URL [] true ["OK"] : WebSocketApp))
        (UpstoxWebSocket.set_connected true (client_on true)),
      world0)).
Proof.
  split.
  - apply (proj1 (send_binary_is_guarded [x01; x02] (client_on true) world0)).
    right. reflexivity.
  - apply (proj2 (send_binary_is_guarded [x4f; x4b]
                    (UpstoxWebSocket.set_connected true (client_on true))
                    world0)
             (Wire UpstoxWebSocket.WS_URL [] true [])).
    + reflexivity.
    + reflexivity.
    + reflexivity.
Defined.

Lemma control_messages_are_not_guarded_witness :
  UpstoxWebSocket.subscribe (uuid4 0) "ltpc" ["NSE_EQ|RELIANCE"]
    (client0, world0)
  = (Raises (Py.AttributeError "'NoneType' object has no attribute 'send'"),
     (client0, client_subscribing (uuid4 0) "ltpc" ["NSE_EQ|RELIANCE"] world0)) ∧
  UpstoxWebSocket.unsubscribe (uuid4 0) ["NSE_EQ|RELIANCE"] (client0, world0)
  = (Raises (Py.AttributeError "'NoneType' object has no attribute 'send'"),
     (client0, client_unsubscribing (uuid4 0) ["NSE_EQ|RELIANCE"] world0)).
Proof.
  apply (proj1 (control_messages_are_not_guarded (uuid4 0) "ltpc"
                  ["NSE_EQ|RELIANCE"] client0 world0)).
  reflexivity.
Defined.

(** RELIANCE is subscribed; subscribing and unsubscribing TCS leaves it. *)
Lemma other_keys_are_untouched_witness :
  UpstoxWebSocketAdapter.subscriptions
    (UpstoxWebSocketAdapter.subscribe "TCS" "BSE" "full" 5
       (connected_adapter {[ reliance := true ]}, world0)).2.1 !! reliance
  = UpstoxWebSocketAdapter.subscriptions
      (connected_adapter {[ reliance := true ]}) !! reliance ∧
  UpstoxWebSocketAdapter.subscriptions
    (UpstoxWebSocketAdapter.unsubscribe "TCS" "BSE" "full"
       (connected_adapter {[ reliance := true ]}, world0)).2.1 !! reliance
  = UpstoxWebSocketAdapter.subscriptions
      (connected_adapter {[ reliance := true ]}) !! reliance.
Proof.
  apply (other_keys_are_untouched "TCS" "BSE" "full" 5
           (connected_adapter {[ reliance := true ]}) world0 reliance).
  discriminate.
Defined.

(** Subscribed as nse, unsubscribed as NSE: the same instrument on the
    wire, and the key with nse stays. *)
Lemma exchange_case_is_kept_in_keys_witness :
  UpstoxWebSocketAdapter.instrument_key "RELIANCE" "nse"
  = UpstoxWebSocketAdapter.instrument_key "RELIANCE" "NSE" ∧
  UpstoxWebSocketAdapter.subscriptions
    (UpstoxWebSocketAdapter.unsubscribe "RELIANCE" "NSE" "ltpc"
       (UpstoxWebSocketAdapter.subscribe "RELIANCE" "nse" "ltpc" 5
          (connected_adapter ∅, world0)).2).2.1
    !! ("RELIANCE", "nse", "ltpc") = Some true.
Proof.
  destruct (exchange_case_is_kept_in_keys "RELIANCE" "nse" "NSE" "ltpc" 5
              (connected_adapter ∅) world0) as [Hkey Hstays].
  - reflexivity.
  - discriminate.
  - split; [exact Hkey|]. apply Hstays. vm_compute. reflexivity.
Defined.

Lemma requests_before_connect_raise_witness :
  UpstoxWebSocketAdapter.subscribe "RELIANCE" "NSE" "ltpc" 5
    (UpstoxWebSocketAdapter.__init__, world0)
  = (Raises (Py.AttributeError
               "'NoneType' object has no attribute 'subscribe'"),
     (UpstoxWebSocketAdapter.__init__,
      subscribing "RELIANCE" "NSE" "ltpc" world0)) ∧
  UpstoxWebSocketAdapter.unsubscribe "RELIANCE" "NSE" "ltpc"
    (UpstoxWebSocketAdapter.__init__, world0)
  = (Raises (Py.AttributeError
               "'NoneType' object has no attribute 'unsubscribe'"),
     (UpstoxWebSocketAdapter.__init__,
      unsubscribing "RELIANCE" "NSE" "ltpc" world0)).
Proof.
  apply (requests_before_connect_raise "RELIANCE" "NSE" "ltpc" 5
           UpstoxWebSocketAdapter.__init__ world0).
  reflexivity.
Defined.

(** RELIANCE was subscribed on a connection that is gone; after a new
    [connect] it is still listed, and the new transport has sent
    nothing. *)
Lemma reconnect_keeps_subscriptions_without_replay_witness :
  UpstoxWebSocketAdapter.subscriptions
    (UpstoxWebSocketAdapter.connect (opens_at 1)
       (stranded_adapter {[ reliance := true ]}, world0)).2.1
  = UpstoxWebSocketAdapter.subscriptions
      (stranded_adapter {[ reliance := true ]}) ∧
  ∃ c',
    UpstoxWebSocketAdapter.ws_client
      (UpstoxWebSocketAdapter.connect (opens_at 1)
         (stranded_adapter {[ reliance := true ]}, world0)).2.1 = Some c' ∧
    UpstoxWebSocket.access_token c' = "eyJ0eXAiOiJKV1Qi" ∧
    UpstoxWebSocket.ws c'
    = Some (WebSocketApp_new UpstoxWebSocket.WS_URL
              ["Authorization: Bearer " ++ "eyJ0eXAiOiJKV1Qi"; "Accept: */*"]).
Proof.
  destruct (reconnect_keeps_subscriptions_without_replay (opens_at 1)
              (stranded_adapter {[ reliance := true ]}) world0)
    as [Hsubs Hclient].
  split; [exact Hsubs|].
  apply (Hclient "eyJ0eXAiOiJKV1Qi"); reflexivity.
Defined.

Lemma adapter_disconnect_outcomes_witness :
  UpstoxWebSocketAdapter.disconnect (UpstoxWebSocketAdapter.__init__, world0)
  = (Returns tt,
     (UpstoxWebSocketAdapter.set_running false UpstoxWebSocketAdapter.__init__,
      world0)) ∧
  let st1 := (UpstoxWebSocket.disconnect (client_on true, world0)).2 in
  UpstoxWebSocketAdapter.disconnect (connected_adapter ∅, world0)
  = (Returns tt,
     (UpstoxWebSocketAdapter.set_running false
        (UpstoxWebSocketAdapter.set_ws_client (Some st1.1)
           (connected_adapter ∅)),
      st1.2)).
Proof.
  split.
  - apply (proj1 (adapter_disconnect_outcomes
                    UpstoxWebSocketAdapter.__init__ world0)).
    reflexivity.
  - intros st1.
    apply (proj1 (proj2 (adapter_disconnect_outcomes
                           (connected_adapter ∅) world0))
             (client_on true) st1).
    + reflexivity.
    + reflexivity.
Defined.

(** User u1 has a token, user u2 has none. *)
Lemma stale_token_survives_reinitialize_witness :
  UpstoxWebSocketAdapter.user_id
    (UpstoxWebSocketAdapter.initialize "upstox" (Some "u2")
       (UpstoxWebSocketAdapter.initialize "upstox" (Some "u1")
          (UpstoxWebSocketAdapter.__init__, world0)).2).2.1
  = Some "u2" ∧
  UpstoxWebSocketAdapter.access_token
    (UpstoxWebSocketAdapter.initialize "upstox" (Some "u2")
       (UpstoxWebSocketAdapter.initialize "upstox" (Some "u1")
          (UpstoxWebSocketAdapter.__init__, world0)).2).2.1
  = Some "eyJ0eXAiOiJKV1Qi" ∧
  ∀ sched,
    (UpstoxWebSocketAdapter.connect sched
       (UpstoxWebSocketAdapter.initialize "upstox" (Some "u2")
          (UpstoxWebSocketAdapter.initialize "upstox" (Some "u1")
             (UpstoxWebSocketAdapter.__init__, world0)).2).2).1
    = Returns tt.
Proof.
  apply (stale_token_survives_reinitialize "upstox" "u1" "u2"
           "eyJ0eXAiOiJKV1Qi" UpstoxWebSocketAdapter.__init__ world0);
    reflexivity.
Defined.

End MoreOnSamples.
